(** * Agent automation services: a shallow embedding and its properties

    The development follows the two Python services of the repository,

    - [backend/server/services/seleniumAgentService.py]
      (class [SeleniumAgentService]), and
    - [backend/server/services/simpleWebScrapingService.py]
      (class [SimpleWebScrapingService]).

    Python strings are sequences of Unicode code points, exceptions are
    explicit results, and every call into a library that talks to the outside
    world (the Selenium driver, the clock, the random generator) is a node of
    a finite interaction tree, answered by an environment. *)

From Stdlib Require Import String Ascii List NArith Arith Bool Lia.
From Stdlib Require Import Floats.PrimFloat.
Import ListNotations.

Set Implicit Arguments.

(* ===================================================================== *)
(** * Python strings *)
(* ===================================================================== *)

(** A Python [str]: a sequence of Unicode code points. [len] is the number
    of code points, slices and [in] work on code points. *)
Definition char := N.
Definition str := list char.

(** The source files are UTF-8 text.  A literal of the source is written as
    a literal here and decoded to the code points Python reads. *)
Fixpoint utf8_bytes (s : string) : list N :=
  match s with
  | EmptyString => []
  | String a s' => N_of_ascii a :: utf8_bytes s'
  end.

Definition utf8_cont (b : N) : N := (b - 128)%N.

Fixpoint utf8_decode (bs : list N) : str :=
  match bs with
  | [] => []
  | b :: r =>
      if (b <? 128)%N then b :: utf8_decode r
      else if (b <? 224)%N then
        match r with
        | b1 :: r1 => ((b - 192) * 64 + utf8_cont b1)%N :: utf8_decode r1
        | _ => []
        end
      else if (b <? 240)%N then
        match r with
        | b1 :: b2 :: r2 =>
            ((b - 224) * 4096 + utf8_cont b1 * 64 + utf8_cont b2)%N
              :: utf8_decode r2
        | _ => []
        end
      else
        match r with
        | b1 :: b2 :: b3 :: r3 =>
            ((b - 240) * 262144 + utf8_cont b1 * 4096 + utf8_cont b2 * 64
             + utf8_cont b3)%N :: utf8_decode r3
        | _ => []
        end
  end.

(** [py "..."] is the Python string written ["..."] in the source. *)
Definition py (s : string) : str := utf8_decode (utf8_bytes s).
Arguments py s%_string_scope.

Definition str_eqb (a b : str) : bool :=
  if list_eq_dec N.eq_dec a b then true else false.

(** [s.startswith(p)] *)
Fixpoint startswith (p s : str) : bool :=
  match p, s with
  | [], _ => true
  | _ :: _, [] => false
  | a :: p', b :: s' => (a =? b)%N && startswith p' s'
  end.

(** [sub in s] *)
Fixpoint contains (sub s : str) : bool :=
  startswith sub s ||
  match s with
  | [] => false
  | _ :: s' => contains sub s'
  end.

(** The relation [contains] decides: [sub] occurs in [s] as a contiguous
    run of characters. *)
Definition occurs_in (sub s : str) : Prop :=
  exists before after, s = before ++ sub ++ after.

(** [str.isspace] on one character: the white space of the Unicode
    database, the characters [str.strip()] removes. *)
Definition isspace (c : char) : bool :=
  ((9 <=? c) && (c <=? 13) || (28 <=? c) && (c <=? 32) || (c =? 133)
   || (c =? 160) || (c =? 5760) || (8192 <=? c) && (c <=? 8202)
   || (c =? 8232) || (c =? 8233) || (c =? 8239) || (c =? 8287)
   || (c =? 12288))%N.

Fixpoint lstrip (s : str) : str :=
  match s with
  | [] => []
  | c :: s' => if isspace c then lstrip s' else s
  end.

Definition rstrip (s : str) : str := rev (lstrip (rev s)).

(** [s.strip()] *)
Definition strip (s : str) : str := rstrip (lstrip s).

(** [s[-n:]] for [n > 0] *)
Definition last_chars (n : nat) (s : str) : str :=
  skipn (length s - n) s.

(** Truthiness of a string: [if s:] *)
Definition truthy (s : str) : bool :=
  match s with
  | [] => false
  | _ :: _ => true
  end.

(* ===================================================================== *)
(** * Exceptions *)
(* ===================================================================== *)

(** The classes the source names in its [except] clauses, and the rest of
    [Exception]'s subclasses. *)
Inductive exn_class :=
| TimeoutException
| NoSuchElementException
| AttributeError
| IndexError
| OtherException.

(** An exception object: its class and [str(e)]. *)
Record exn := Exn { exn_is : exn_class; exn_str : str }.

Inductive res (A : Type) :=
| Ok (a : A)
| Raise (e : exn).
Arguments Ok {A} a.
Arguments Raise {A} e.

Definition is_Timeout (e : exn) : bool :=
  match exn_is e with TimeoutException => true | _ => false end.

Definition is_NoSuchElement (e : exn) : bool :=
  match exn_is e with NoSuchElementException => true | _ => false end.

(* ===================================================================== *)
(** * Calls into the libraries, and programs over them *)
(* ===================================================================== *)

(** A [webdriver.Chrome] session and a [WebElement]: the handles the driver
    hands out. *)
Definition driver := nat.
Definition element := nat.

Inductive By := CSS_SELECTOR | XPATH | TAG_NAME.

(** [selenium.webdriver.chrome.options.Options] *)
Record Options := { arguments : list str; binary_location : str }.

(** One constructor per library call of the source.  The index is what the
    call gives back; a call that can raise gives back a [res]. *)
Inductive call : Type -> Type :=
| webdriver_Chrome (service : option str) (options : Options)
    : call (res driver)
| ChromeDriverManager_install : call (res str)
| set_window_size (d : driver) (width height : nat) : call (res unit)
| implicitly_wait (d : driver) (seconds : nat) : call (res unit)
| driver_get (d : driver) (url : str) : call (res unit)
| driver_quit (d : driver) : call (res unit)
| wait_until_presence (d : driver) (timeout : nat) (by_ : By) (value : str)
    : call (res element)
| find_element (d : driver) (by_ : By) (value : str) : call (res element)
| find_elements (d : driver) (by_ : By) (value : str)
    : call (res (list element))
| clear (e : element) : call (res unit)
| send_keys (e : element) (keys : str) : call (res unit)
| click (e : element) : call (res unit)
| is_enabled (e : element) : call (res bool)
| is_displayed (e : element) : call (res bool)
| text (e : element) : call (res str)
| sleep (seconds : nat) : call unit
| time : call float
| randbelow (n : nat) : call nat.

(** A program: it returns, or calls a library and goes on with the answer.
    Every loop of the source runs over a fixed list, so the tree is finite. *)
Inductive prog (A : Type) : Type :=
| Ret (a : A)
| Call (R : Type) (c : call R) (k : R -> prog A).
Arguments Ret {A} a.
Arguments Call {A R} c k.

Fixpoint pbind {A B : Type} (p : prog A) (f : A -> prog B) : prog B :=
  match p with
  | Ret a => f a
  | Call c k => Call c (fun r => pbind (k r) f)
  end.

(** A computation that may raise. *)
Definition M (A : Type) : Type := prog (res A).

Definition ret {A : Type} (a : A) : M A := Ret (Ok a).
Definition raise {A : Type} (e : exn) : M A := Ret (Raise e).

Definition bind {A B : Type} (m : M A) (f : A -> M B) : M B :=
  pbind m (fun r => match r with Ok a => f a | Raise e => Ret (Raise e) end).

(** [try: m  except ... as e: handler e] *)
Definition try_ {A : Type} (m : M A) (handler : exn -> M A) : M A :=
  pbind m (fun r => match r with Ok a => Ret (Ok a) | Raise e => handler e end).

(** A library call that may raise, and one that may not. *)
Definition perform {R : Type} (c : call (res R)) : M R := Call c Ret.
Definition perform' {R : Type} (c : call R) : M R := Call c (fun r => Ret (Ok r)).

Declare Scope py_scope.
Delimit Scope py_scope with py.
Notation "x <- m ;; k" := (bind m (fun x => k))
  (at level 61, m at next level, right associativity) : py_scope.
Notation "m ;; k" := (bind m (fun _ => k))
  (at level 61, right associativity) : py_scope.
Open Scope py_scope.

(** ** Environments and runs *)

(** One answered call. *)
Inductive event : Type :=
| Ev (R : Type) (c : call R) (r : R).
Arguments Ev {R} c r.

(** The outside world: a state and, for every call, an answer and the next
    state. *)
Definition env (W : Type) : Type := forall R : Type, call R -> W -> R * W.

Record outcome (W A : Type) := Outcome {
  result : A;
  final : W;
  trace : list event
}.

Fixpoint run {W A : Type} (h : env W) (p : prog A) (w : W) : outcome W A :=
  match p with
  | Ret a => Outcome a w []
  | Call c k =>
      let (r, w1) := h _ c w in
      let o := run h (k r) w1 in
      Outcome (result o) (final o) (Ev c r :: trace o)
  end.

(* ===================================================================== *)
(** * Result objects *)
(* ===================================================================== *)

(** The values the result dictionaries hold. *)
Inductive value :=
| VBool (b : bool)
| VStr (s : str)
| VFloat (f : float)
| VNone.

(** A [dict] literal, in insertion order (the order [json.dumps] prints). *)
Definition dict := list (string * value).

Definition keys (d : dict) : list string := map fst d.

Fixpoint lookup (k : string) (d : dict) : option value :=
  match d with
  | [] => None
  | (k', v) :: d' => if String.eqb k k' then Some v else lookup k d'
  end.

Definition of_optional (o : option str) : value :=
  match o with
  | Some s => VStr s
  | None => VNone
  end.

(* ===================================================================== *)
(** * seleniumAgentService.py *)
(* ===================================================================== *)

Module SeleniumAgentService.

(** The instance: [self.headless] and [self.driver].  The logger is left
    out: [logging] swallows the errors of its handlers, and nothing below
    depends on what is logged. *)
Record t := { headless : bool; driver_ : option driver }.

(** [SeleniumAgentService(headless)] *)
Definition __init__ (headless : bool) : t :=
  {| headless := headless; driver_ := None |}.

Definition set_driver (self : t) (d : driver) : t :=
  {| headless := headless self; driver_ := Some d |}.

Definition chrome_options (self : t) : Options :=
  {| arguments :=
       (if headless self then [py "--headless"] else []) ++
       [ py "--no-sandbox";
         py "--disable-dev-shm-usage";
         py "--disable-gpu";
         py "--disable-extensions";
         py "--disable-web-security";
         py "--allow-running-insecure-content";
         py "--disable-setuid-sandbox";
         py "--disable-background-timer-throttling";
         py "--disable-backgrounding-occluded-windows";
         py "--disable-renderer-backgrounding";
         py "--user-agent=Mozilla/5.0 (Windows NT 10.0; Win64; x64) AppleWebKit/537.36 (KHTML, like Gecko) Chrome/91.0.4472.124 Safari/537.36" ];
     binary_location := py "/nix/store/*/bin/chromium" |}.

(** The three ways [_setup_driver] tries to start Chrome, each in the
    [except:] of the one before. *)
Definition start_chrome (options : Options) : M driver :=
  try_ (perform
          (webdriver_Chrome (Some (py "/nix/store/*/bin/chromedriver")) options))
    (fun _ =>
       try_ (path <- perform ChromeDriverManager_install ;;
             perform (webdriver_Chrome (Some path) options))
         (fun _ => perform (webdriver_Chrome None options))).

(** [_setup_driver]: [True] when the driver is configured; [self.driver] is
    assigned as soon as Chrome has started. *)
Definition _setup_driver (self : t) : prog (bool * t) :=
  pbind (start_chrome (chrome_options self)) (fun started =>
    match started with
    | Raise _ => Ret (false, self)
    | Ok d =>
        let self' := set_driver self d in
        pbind (perform (set_window_size d 1920 1080) ;;
               perform (implicitly_wait d 10))
          (fun r =>
             match r with
             | Ok _ => Ret (true, self')
             | Raise _ => Ret (false, self')
             end)
    end).

Definition _detect_agent_type (agent_url : str) : str :=
  if contains (py "chatgpt.com") agent_url || contains (py "openai.com") agent_url
  then py "chatgpt"
  else if contains (py "claude.ai") agent_url
  then py "claude"
  else if contains (py "bard.google.com") agent_url
          || contains (py "gemini.google.com") agent_url
  then py "gemini"
  else py "unknown".

(** [self.driver.<method>]: an [AttributeError] when [self.driver] is [None]. *)
Definition the_driver (self : t) : M driver :=
  match driver_ self with
  | Some d => ret d
  | None =>
      raise (Exn AttributeError (py "'NoneType' object has no attribute 'get'"))
  end.

(** ** [_handle_chatgpt_interaction] *)

Definition text_selectors : list str :=
  [ py "textarea[placeholder*='Message']";
    py "textarea[data-id='root']";
    py "#prompt-textarea";
    py "textarea[placeholder*='Send a message']";
    py ".prose textarea";
    py "div[contenteditable='true']" ].

Definition send_selectors : list str :=
  [ py "button[data-testid='send-button']";
    py "button[aria-label='Send message']";
    py "button:has-text('Send')";
    py ".absolute.right-2 button";
    py "button[type='submit']" ].

Definition response_selectors : list str :=
  [ py ".markdown.prose";
    py ".message-content";
    py "[data-message-author-role='assistant'] .markdown";
    py ".conversation-turn .markdown" ].

(** The loop over [text_selectors]: the first selector whose wait does not
    time out gives [text_area]; any other exception leaves the loop. *)
Fixpoint find_text_area (d : driver) (selectors : list str)
  : M (option element) :=
  match selectors with
  | [] => ret None
  | selector :: rest =>
      try_ (text_area <- perform (wait_until_presence d 30 CSS_SELECTOR selector) ;;
            ret (Some text_area))
        (fun e => if is_Timeout e then find_text_area d rest else raise e)
  end.

(** The loop over [send_selectors].  [send_button] keeps the element found
    last, enabled or not; the loop breaks on the first enabled one. *)
Fixpoint find_send_button (d : driver) (selectors : list str)
    (send_button : option element) : M (option element) :=
  match selectors with
  | [] => ret send_button
  | selector :: rest =>
      pbind (perform (find_element d CSS_SELECTOR selector)) (fun found =>
        match found with
        | Raise e =>
            if is_NoSuchElement e then find_send_button d rest send_button
            else raise e
        | Ok button =>
            pbind (perform (is_enabled button)) (fun enabled =>
              match enabled with
              | Ok true => ret (Some button)
              | Ok false => find_send_button d rest (Some button)
              | Raise e =>
                  if is_NoSuchElement e
                  then find_send_button d rest (Some button)
                  else raise e
              end)
        end)
  end.

(** [response_elements[-1]] when the list is not empty. *)
Definition last_element (response_elements : list element) : option element :=
  match response_elements with
  | [] => None
  | e :: l => Some (last l e)
  end.

(** One turn of the loop over [response_selectors]: [Some] is the [return],
    [None] goes on to the next selector. *)
Definition try_response_selector (d : driver) (selector : str)
  : M (option str) :=
  try_ (response_elements <- perform (find_elements d CSS_SELECTOR selector) ;;
        match last_element response_elements with
        | None => ret None
        | Some newest =>
            raw <- perform (text newest) ;;
            let response_text := strip raw in
            if truthy response_text && (10 <? length response_text)
            then ret (Some response_text)
            else ret None
        end)
    (fun _ => ret None).

Fixpoint read_response (d : driver) (selectors : list str) : M (option str) :=
  match selectors with
  | [] => ret None
  | selector :: rest =>
      found <- try_response_selector d selector ;;
      match found with
      | Some response_text => ret (Some response_text)
      | None => read_response d rest
      end
  end.

Definition chatgpt_steps (self : t) (agent_url message : str)
  : M (option str) :=
  d <- the_driver self ;;
  perform (driver_get d agent_url) ;;
  found <- find_text_area d text_selectors ;;
  match found with
  | None => ret None
  | Some text_area =>
      perform (clear text_area) ;;
      perform (send_keys text_area message) ;;
      send_button <- find_send_button d send_selectors None ;;
      match send_button with
      | None => ret None
      | Some button =>
          enabled <- perform (is_enabled button) ;;
          if negb enabled then ret None
          else
            perform (click button) ;;
            perform' (sleep 3) ;;
            read_response d response_selectors
      end
  end.

Definition _handle_chatgpt_interaction (self : t) (agent_url message : str)
  : prog (option str) :=
  pbind (chatgpt_steps self agent_url message) (fun r =>
    match r with
    | Ok response => Ret response
    | Raise _ => Ret None
    end).

(** ** [_handle_generic_interaction] *)

Definition generic_text_selectors : list str :=
  [ py "textarea";
    py "input[type='text']";
    py "div[contenteditable='true']";
    py "[role='textbox']" ].

Definition send_button_xpath : str :=
  py "//button[contains(text(), 'Send') or contains(text(), 'Submit') or contains(text(), 'Enviar')]".

(** [page_text[-500:] if len(page_text) > 500 else page_text] *)
Definition tail_of_page (page_text : str) : str :=
  if 500 <? length page_text then last_chars 500 page_text else page_text.

Definition read_page (d : driver) : M str :=
  body <- perform (find_element d TAG_NAME (py "body")) ;;
  page_text <- perform (text body) ;;
  ret (tail_of_page page_text).

(** The inner [try] of the loop: click the send button and read the page;
    on [NoSuchElementException], send a newline to the field and read the
    page. *)
Definition submit_and_read (d : driver) (text_area : element)
  : M (option str) :=
  try_ (send_button <- perform (find_element d XPATH send_button_xpath) ;;
        perform (click send_button) ;;
        perform' (sleep 3) ;;
        page <- read_page d ;;
        ret (Some page))
    (fun e =>
       if is_NoSuchElement e then
         perform (send_keys text_area [10%N]) ;;
         perform' (sleep 3) ;;
         page <- read_page d ;;
         ret (Some page)
       else raise e).

(** One turn of the loop over the generic selectors: [Some] is the
    [return], [None] goes on to the next selector. *)
Definition try_generic_selector (d : driver) (message selector : str)
  : M (option str) :=
  try_ (text_area <- perform (find_element d CSS_SELECTOR selector) ;;
        displayed <- perform (is_displayed text_area) ;;
        usable <- (if displayed then perform (is_enabled text_area)
                   else ret false) ;;
        if usable then
          perform (clear text_area) ;;
          perform (send_keys text_area message) ;;
          submit_and_read d text_area
        else ret None)
    (fun e => if is_NoSuchElement e then ret None else raise e).

Fixpoint generic_loop (d : driver) (message : str) (selectors : list str)
  : M (option str) :=
  match selectors with
  | [] => ret None
  | selector :: rest =>
      found <- try_generic_selector d message selector ;;
      match found with
      | Some page => ret (Some page)
      | None => generic_loop d message rest
      end
  end.

Definition generic_steps (self : t) (agent_url message : str)
  : M (option str) :=
  d <- the_driver self ;;
  perform (driver_get d agent_url) ;;
  perform' (sleep 5) ;;
  generic_loop d message generic_text_selectors.

Definition _handle_generic_interaction (self : t) (agent_url message : str)
  : prog (option str) :=
  pbind (generic_steps self agent_url message) (fun r =>
    match r with
    | Ok response => Ret response
    | Raise _ => Ret None
    end).

(** ** [get_agent_response] *)

Definition driver_failure : dict :=
  [ ("success"%string, VBool false);
    ("error"%string, VStr (py "No se pudo configurar el driver de navegador"));
    ("response"%string, VNone) ].

Definition no_response : dict :=
  [ ("success"%string, VBool false);
    ("error"%string, VStr (py "No se pudo obtener respuesta del agente"));
    ("response"%string, VNone) ].

Definition failure (e : exn) : dict :=
  [ ("success"%string, VBool false);
    ("error"%string, VStr (exn_str e));
    ("response"%string, VNone) ].

Definition success (response agent_type : str) (agent_id : option str)
    (timestamp : float) : dict :=
  [ ("success"%string, VBool true);
    ("response"%string, VStr response);
    ("agent_type"%string, VStr agent_type);
    ("agent_id"%string, of_optional agent_id);
    ("timestamp"%string, VFloat timestamp) ].

(** The body of the [try] of [get_agent_response]. *)
Definition respond (self : t) (agent_url message : str)
    (agent_id : option str) : prog (res dict * t) :=
  pbind (match driver_ self with
         | None => _setup_driver self
         | Some _ => Ret (true, self)
         end)
    (fun '(configured, self) =>
       if negb configured then Ret (Ok driver_failure, self)
       else
         let agent_type := _detect_agent_type agent_url in
         pbind (if str_eqb agent_type (py "chatgpt")
                then _handle_chatgpt_interaction self agent_url message
                else _handle_generic_interaction self agent_url message)
           (fun response =>
              match response with
              | Some response_text =>
                  if truthy response_text
                  then Call time (fun now =>
                         Ret (Ok (success response_text agent_type agent_id now),
                              self))
                  else Ret (Ok no_response, self)
              | None => Ret (Ok no_response, self)
              end)).

Definition get_agent_response (self : t) (agent_url message : str)
    (agent_id : option str) : prog (res dict * t) :=
  pbind (respond self agent_url message agent_id) (fun '(r, self) =>
    match r with
    | Ok d => Ret (Ok d, self)
    | Raise e => Ret (Ok (failure e), self)
    end).

(** [close] *)
Definition close (self : t) : prog unit :=
  match driver_ self with
  | Some d => Call (driver_quit d) (fun _ => Ret tt)
  | None => Ret tt
  end.

End SeleniumAgentService.

(* ===================================================================== *)
(** * simpleWebScrapingService.py *)
(* ===================================================================== *)

(** [s.split(sep)] for a separator that is not empty. *)
Fixpoint split_from (sep s : str) (skip : nat) (current : str) : list str :=
  match s with
  | [] => [rev current]
  | c :: s' =>
      match skip with
      | S k => split_from sep s' k current
      | O =>
          if startswith sep s
          then rev current :: split_from sep s' (length sep - 1) []
          else split_from sep s' 0 (c :: current)
      end
  end.

Definition split (sep s : str) : list str := split_from sep s 0 [].

(** [s.replace(old, new)] for an [old] that is not empty. *)
Fixpoint replace_from (old new s : str) (skip : nat) : str :=
  match s with
  | [] => []
  | c :: s' =>
      match skip with
      | S k => replace_from old new s' k
      | O =>
          if startswith old s
          then new ++ replace_from old new s' (length old - 1)
          else c :: replace_from old new s' 0
      end
  end.

Definition replace (old new s : str) : str := replace_from old new s 0.

(** [sep.join(parts)] *)
Fixpoint join (sep : str) (parts : list str) : str :=
  match parts with
  | [] => []
  | [p] => p
  | p :: rest => p ++ sep ++ join sep rest
  end.

(** The functions of Python's library the service calls on strings and
    URLs: they are tables over all of Unicode, or a parser of their own. *)
Record library := {
  lower : str -> str;                  (* [str.lower] *)
  capitalize : str -> str;             (* [str.capitalize] *)
  isdigit : str -> bool;               (* [str.isdigit] *)
  urlparse_netloc : str -> res str     (* [urlparse(url).netloc] *)
}.

Module SimpleWebScrapingService.

Section WithLibrary.

Variable L : library.

Definition _detect_agent_type (agent_url : str) : str :=
  if contains (py "chatgpt.com") agent_url || contains (py "openai.com") agent_url
  then py "chatgpt"
  else if contains (py "claude.ai") agent_url
  then py "claude"
  else if contains (py "bard.google.com") agent_url
          || contains (py "gemini.google.com") agent_url
  then py "gemini"
  else py "unknown".

(** The [responses] table of [_generate_simulated_response]: the f-strings
    with [agent_name] and [message] filled in. *)
Definition responses (message agent_name : str) : list (str * list str) :=
  [ (py "chatgpt",
     [ py "Hola, soy " ++ agent_name ++ py ". He recibido tu consulta: '" ++ message ++ py "'. Como asistente de IA, puedo ayudarte con información, análisis y recomendaciones. ¿En qué aspecto específico te gustaría que me enfoque?";
       py "Gracias por contactar a " ++ agent_name ++ py ". Tu mensaje sobre '" ++ message ++ py "' es muy interesante. Basándome en mi conocimiento, puedo sugerirte algunas opciones y enfoques para abordar tu consulta. ¿Te gustaría que profundice en algún punto particular?";
       py "Como " ++ agent_name ++ py ", entiendo que necesitas ayuda con '" ++ message ++ py "'. Puedo proporcionarte información detallada y recomendaciones personalizadas. ¿Hay algún contexto adicional que debería considerar para darte la mejor respuesta?" ]);
    (py "smartflyer",
     [ py "¡Hola! Soy " ++ agent_name ++ py ", tu asistente especializado en viajes. He visto tu consulta sobre '" ++ message ++ py "'. Puedo ayudarte con reservas de vuelos, hoteles, itinerarios personalizados y recomendaciones de destinos. ¿En qué aspecto específico de tu viaje puedo asistirte?";
       py "Bienvenido a " ++ agent_name ++ py ". Tu consulta sobre '" ++ message ++ py "' me permite entender tus necesidades de viaje. Como especialista en turismo, puedo ofrecerte las mejores opciones de vuelos, hospedaje y actividades. ¿Cuáles son tus fechas y destino preferido?";
       py "Como " ++ agent_name ++ py ", estoy aquí para hacer tu experiencia de viaje excepcional. Sobre tu mensaje '" ++ message ++ py "', puedo ayudarte con planificación completa, desde vuelos hasta experiencias locales. ¿Qué tipo de viaje tienes en mente?" ]);
    (py "smartplanner",
     [ py "Hola, soy " ++ agent_name ++ py ", tu asistente de planificación inteligente. He analizado tu solicitud sobre '" ++ message ++ py "'. Puedo ayudarte a organizar proyectos, gestionar tiempos, optimizar recursos y crear estrategias efectivas. ¿Qué aspecto de la planificación necesitas desarrollar?";
       py "Como " ++ agent_name ++ py ", entiendo que buscas optimizar '" ++ message ++ py "'. Mi especialidad es crear planes estructurados y eficientes. Puedo ayudarte con cronogramas, asignación de recursos y seguimiento de objetivos. ¿Cuál es tu meta principal?";
       py "Bienvenido a " ++ agent_name ++ py ". Tu consulta sobre '" ++ message ++ py "' requiere un enfoque planificado. Puedo diseñar estrategias personalizadas, establecer prioridades y crear sistemas de seguimiento. ¿Qué plazo tienes para este proyecto?" ]);
    (py "technical",
     [ py "Saludos, soy " ++ agent_name ++ py ", especialista en gestión técnica. He revisado tu consulta sobre '" ++ message ++ py "'. Puedo asistirte con análisis técnicos, implementaciones, resolución de problemas y optimización de procesos. ¿Qué desafío técnico específico enfrentas?";
       py "Como " ++ agent_name ++ py ", tu consulta sobre '" ++ message ++ py "' requiere experiencia técnica especializada. Puedo proporcionarte soluciones detalladas, mejores prácticas y recomendaciones de implementación. ¿Cuál es el contexto técnico de tu proyecto?";
       py "Hola, soy " ++ agent_name ++ py ". He analizado tu mensaje sobre '" ++ message ++ py "' desde una perspectiva técnica. Puedo ayudarte con diagnósticos, diseño de soluciones y gestión de implementaciones. ¿Qué recursos técnicos tienes disponibles?" ]);
    (py "sales",
     [ py "¡Hola! Soy " ++ agent_name ++ py ", tu especialista en ventas. He recibido tu consulta sobre '" ++ message ++ py "'. Puedo ayudarte con estrategias de ventas, análisis de mercado, desarrollo de clientes y cierre de negocios. ¿Qué oportunidad comercial estás explorando?";
       py "Como " ++ agent_name ++ py ", entiendo que '" ++ message ++ py "' representa una oportunidad de negocio. Mi experiencia en ventas me permite ofrecerte estrategias efectivas, técnicas de persuasión y enfoques de cierre. ¿Cuál es tu objetivo de ventas?";
       py "Bienvenido, soy " ++ agent_name ++ py ". Tu mensaje sobre '" ++ message ++ py "' me permite identificar oportunidades comerciales. Puedo desarrollar propuestas personalizadas, estrategias de seguimiento y planes de cierre. ¿Qué tipo de cliente estás buscando?" ]) ].

(** [responses.get(category, default)] *)
Fixpoint responses_get (category : str) (table : list (str * list str))
    (default : list str) : list str :=
  match table with
  | [] => default
  | (k, v) :: rest =>
      if str_eqb category k then v else responses_get category rest default
  end.

(** The category of the reply, from the agent's name alone. *)
Definition response_category (agent_name : str) : str :=
  let name := lower L agent_name in
  if contains (py "smartflyer") name || contains (py "viaj") name
  then py "smartflyer"
  else if contains (py "smartplanner") name || contains (py "plann") name
  then py "smartplanner"
  else if contains (py "técnico") name || contains (py "technical") name
  then py "technical"
  else if contains (py "ventas") name || contains (py "sales") name
  then py "sales"
  else py "chatgpt".

(** [random.choice(seq)]: [seq[i]] for the index [i] the generator draws
    below [len(seq)]. *)
Definition random_choice (seq : list str) : M str :=
  match seq with
  | [] => raise (Exn IndexError (py "Cannot choose from an empty sequence"))
  | _ :: _ =>
      i <- perform' (randbelow (length seq)) ;;
      match nth_error seq i with
      | Some x => ret x
      | None => raise (Exn IndexError (py "list index out of range"))
      end
  end.

Definition _generate_simulated_response (message agent_type agent_name : str)
  : M str :=
  let table := responses message agent_name in
  let category := response_category agent_name in
  let response_templates :=
    responses_get category table (responses_get (py "chatgpt") table []) in
  random_choice response_templates.

(** [parts[-3:]] *)
Definition last_three (parts : list str) : list str :=
  skipn (length parts - 3) parts.

(** The loop that collects [name_parts]. *)
Fixpoint name_parts_of (parts : list str) : list str :=
  match parts with
  | [] => []
  | part :: rest =>
      if truthy part && negb (isdigit L part) && (2 <? length part)
      then capitalize L part :: name_parts_of rest
      else name_parts_of rest
  end.

Definition domain_name (agent_url : str) : M str :=
  netloc <- Ret (urlparse_netloc L agent_url) ;;
  let domain := replace (py "www.") [] netloc in
  match nth_error (split (py ".") domain) 0 with
  | Some first => ret (capitalize L first)
  | None => raise (Exn IndexError (py "list index out of range"))
  end.

Definition extract_steps (agent_url : str) : M str :=
  if contains (py "chatgpt.com/g/") agent_url then
    match nth_error (split (py "chatgpt.com/g/") agent_url) 1 with
    | None => raise (Exn IndexError (py "list index out of range"))
    | Some tail =>
        let parts := split (py "-") tail in
        if 1 <? length parts then
          let name_parts := name_parts_of (last_three parts) in
          match name_parts with
          | _ :: _ => ret (join (py " ") name_parts)
          | [] => domain_name agent_url
          end
        else domain_name agent_url
    end
  else domain_name agent_url.

Definition _extract_agent_name (agent_url : str) : prog str :=
  pbind (extract_steps agent_url) (fun r =>
    match r with
    | Ok name => Ret name
    | Raise _ => Ret (py "Agente IA")
    end).

Definition success (response agent_type : str) (agent_id : option str)
    (agent_name : str) (timestamp processing_time : float) : dict :=
  [ ("success"%string, VBool true);
    ("response"%string, VStr response);
    ("agent_type"%string, VStr agent_type);
    ("agent_id"%string, of_optional agent_id);
    ("agent_name"%string, VStr agent_name);
    ("timestamp"%string, VFloat timestamp);
    ("processing_time"%string, VFloat processing_time);
    ("method"%string, VStr (py "simulated_contextual")) ].

Definition failure (e : exn) : dict :=
  [ ("success"%string, VBool false);
    ("error"%string, VStr (exn_str e));
    ("response"%string, VNone) ].

(** The body of the [try] of [get_agent_response]. *)
Definition respond (agent_url message : str) (agent_id : option str)
  : M dict :=
  start_time <- perform' time ;;
  let agent_type := _detect_agent_type agent_url in
  agent_name <- pbind (_extract_agent_name agent_url) ret ;;
  response <- _generate_simulated_response message agent_type agent_name ;;
  finished <- perform' time ;;
  let processing_time := PrimFloat.sub finished start_time in
  timestamp <- perform' time ;;
  ret (success response agent_type agent_id agent_name timestamp
         processing_time).

Definition get_agent_response (agent_url message : str)
    (agent_id : option str) : M dict :=
  try_ (respond agent_url message agent_id) (fun e => ret (failure e)).

End WithLibrary.

End SimpleWebScrapingService.

(* ===================================================================== *)
(** * A synthetic browser *)
(* ===================================================================== *)

(** An environment to run the services against: a page given as its nodes
    in document order, a Chrome that starts or does not, a clock and the
    draws of the random generator.  [WebElement] [k] is the [k]-th node. *)
Module Synthetic.

Record node := {
  matched_by : list (By * str);
  enabled : bool;
  displayed : bool;
  inner_text : str
}.

Record browser := {
  chrome_starts : bool;
  page : list node;
  clock : float;
  draws : list nat;
  clicked : list element
}.

Definition by_eqb (a b : By) : bool :=
  match a, b with
  | CSS_SELECTOR, CSS_SELECTOR | XPATH, XPATH | TAG_NAME, TAG_NAME => true
  | _, _ => false
  end.

Definition matches (by_ : By) (value : str) (n : node) : bool :=
  existsb (fun m => by_eqb by_ (fst m) && str_eqb value (snd m)) (matched_by n).

(** The elements a locator finds, in document order. *)
Fixpoint located (by_ : By) (value : str) (nodes : list node) (k : element)
  : list element :=
  match nodes with
  | [] => []
  | n :: rest =>
      (if matches by_ value n then [k] else []) ++ located by_ value rest (S k)
  end.

Definition node_at (w : browser) (e : element) : res node :=
  match nth_error (page w) e with
  | Some n => Ok n
  | None => Raise (Exn OtherException (py "stale element reference"))
  end.

Definition on_node {A : Type} (w : browser) (e : element) (f : node -> A)
  : res A :=
  match node_at w e with
  | Ok n => Ok (f n)
  | Raise x => Raise x
  end.

Definition locate (w : browser) (by_ : By) (value : str) (missing : exn_class)
  : res element :=
  match located by_ value (page w) 0 with
  | e :: _ => Ok e
  | [] => Raise (Exn missing (py "no such element"))
  end.

Definition press (w : browser) (e : element) : browser :=
  {| chrome_starts := chrome_starts w; page := page w; clock := clock w;
     draws := draws w; clicked := clicked w ++ [e] |}.

Definition drawn (w : browser) : browser :=
  {| chrome_starts := chrome_starts w; page := page w; clock := clock w;
     draws := tl (draws w); clicked := clicked w |}.

Definition answer : env browser :=
  fun (R : Type) (c : call R) (w : browser) =>
    match c in call R0 return R0 * browser with
    | webdriver_Chrome _ _ =>
        (if chrome_starts w then Ok 0
         else Raise (Exn OtherException (py "unable to obtain driver for chrome")),
         w)
    | ChromeDriverManager_install =>
        (Raise (Exn OtherException (py "could not reach host")), w)
    | set_window_size _ _ _ => (Ok tt, w)
    | implicitly_wait _ _ => (Ok tt, w)
    | driver_get _ _ => (Ok tt, w)
    | driver_quit _ => (Ok tt, w)
    | wait_until_presence _ _ by_ value =>
        (locate w by_ value TimeoutException, w)
    | find_element _ by_ value =>
        (locate w by_ value NoSuchElementException, w)
    | find_elements _ by_ value => (Ok (located by_ value (page w) 0), w)
    | clear e => (on_node w e (fun _ => tt), w)
    | send_keys e _ => (on_node w e (fun _ => tt), w)
    | click e => (on_node w e (fun _ => tt), press w e)
    | is_enabled e => (on_node w e enabled, w)
    | is_displayed e => (on_node w e displayed, w)
    | text e => (on_node w e inner_text, w)
    | sleep _ => (tt, w)
    | time => (clock w, w)
    | randbelow _ => (hd 0 (draws w), drawn w)
    end.

Definition browser_with (starts : bool) (nodes : list node) (draws : list nat)
  : browser :=
  {| chrome_starts := starts; page := nodes; clock := 1700000000%float;
     draws := draws; clicked := [] |}.

Definition css (selector : string) : By * str := (CSS_SELECTOR, py selector).

(** A chat page: an input, a send button, and two replies. *)
Definition chat_page : list node :=
  [ {| matched_by := [css "#prompt-textarea"; css "textarea"];
       enabled := true; displayed := true; inner_text := [] |};
    {| matched_by := [css "button[data-testid='send-button']"];
       enabled := true; displayed := true; inner_text := py "Send" |};
    {| matched_by := [css ".markdown.prose"];
       enabled := true; displayed := true;
       inner_text := py "An earlier reply of the assistant." |};
    {| matched_by := [css ".markdown.prose"];
       enabled := true; displayed := true;
       inner_text := py "  The newest reply of the assistant.  " |};
    {| matched_by := [(TAG_NAME, py "body")];
       enabled := true; displayed := true;
       inner_text := py "Send An earlier reply of the assistant. The newest reply of the assistant." |} ].

(** A page of an unknown agent: a text field and a body that says [ok]. *)
Definition terse_page : list node :=
  [ {| matched_by := [css "textarea"];
       enabled := true; displayed := true; inner_text := [] |};
    {| matched_by := [(TAG_NAME, py "body")];
       enabled := true; displayed := true; inner_text := py "ok" |} ].

(** The last reply is still short while an earlier one is complete. *)
Definition streaming_page : list node :=
  [ {| matched_by := [css "#prompt-textarea"];
       enabled := true; displayed := true; inner_text := [] |};
    {| matched_by := [css "button[type='submit']"];
       enabled := true; displayed := true; inner_text := [] |};
    {| matched_by := [css ".markdown.prose"];
       enabled := true; displayed := true;
       inner_text := py "A complete reply of the assistant." |};
    {| matched_by := [css ".markdown.prose"];
       enabled := true; displayed := true; inner_text := py "Thinking" |} ].

(** The first input candidate matches a disabled field, a later one an
    enabled field. *)
Definition two_inputs_page : list node :=
  [ {| matched_by := [css "textarea[placeholder*='Message']"];
       enabled := false; displayed := true; inner_text := [] |};
    {| matched_by := [css "#prompt-textarea"];
       enabled := true; displayed := true; inner_text := [] |} ].

(** The first submit candidate is disabled, a later one is enabled. *)
Definition two_buttons_page : list node :=
  [ {| matched_by := [css "#prompt-textarea"];
       enabled := true; displayed := true; inner_text := [] |};
    {| matched_by := [css "button[data-testid='send-button']"];
       enabled := false; displayed := true; inner_text := [] |};
    {| matched_by := [css "button[type='submit']"];
       enabled := true; displayed := true; inner_text := [] |};
    {| matched_by := [css ".message-content"];
       enabled := true; displayed := true;
       inner_text := py "Here is the answer you asked for." |} ].


(** The same browser when Chrome cannot be started at all, and when every
    navigation fails. *)
Definition answer_without_chrome : env browser :=
  fun (R : Type) (c : call R) (w : browser) =>
    match c in call R0 return R0 * browser with
    | webdriver_Chrome _ _ =>
        (Raise (Exn OtherException (py "unable to obtain driver for chrome")), w)
    | other => answer other w
    end.

Definition answer_offline : env browser :=
  fun (R : Type) (c : call R) (w : browser) =>
    match c in call R0 return R0 * browser with
    | driver_get _ _ =>
        (Raise (Exn OtherException (py "net::ERR_NAME_NOT_RESOLVED")), w)
    | other => answer other w
    end.

(** [str.lower], [str.capitalize] and [str.isdigit] on ASCII text, and the
    host of an absolute URL: what Python's library gives on the ASCII inputs
    of the examples below. *)
Definition ascii_lower_char (c : char) : char :=
  if ((65 <=? c) && (c <=? 90))%N then (c + 32)%N else c.

Definition ascii_upper_char (c : char) : char :=
  if ((97 <=? c) && (c <=? 122))%N then (c - 32)%N else c.

Definition ascii_capitalize (s : str) : str :=
  match s with
  | [] => []
  | c :: s' => ascii_upper_char c :: map ascii_lower_char s'
  end.

Definition ascii_isdigit (s : str) : bool :=
  truthy s && forallb (fun c => (48 <=? c) && (c <=? 57))%N s.

Fixpoint until_delimiter (s : str) : str :=
  match s with
  | [] => []
  | c :: s' =>
      if ((c =? 47) || (c =? 63) || (c =? 35))%N then []
      else c :: until_delimiter s'
  end.

Definition host_of (url : str) : res str :=
  match split (py "://") url with
  | _ :: rest :: _ => Ok (until_delimiter rest)
  | _ => Ok []
  end.

Definition ascii_library : library :=
  {| lower := map ascii_lower_char;
     capitalize := ascii_capitalize;
     isdigit := ascii_isdigit;
     urlparse_netloc := host_of |}.

End Synthetic.

(* ===================================================================== *)
(** * Vocabulary of the statements *)
(* ===================================================================== *)

(** ** Ordered fallback over a list of candidates *)

Section Fallback.

Variables W R : Type.

(** [hit s w r w']: tried in state [w], candidate [s] resolves to [r] and
    leaves state [w'].  [miss s w w']: it does not resolve. *)
Variable hit : str -> W -> R -> W -> Prop.
Variable miss : str -> W -> W -> Prop.

(** Every candidate of the list was tried, in order, and none resolved. *)
Inductive all_miss : list str -> W -> W -> Prop :=
| all_miss_nil : forall w, all_miss [] w w
| all_miss_cons : forall s rest w w1 w2,
    miss s w w1 -> all_miss rest w1 w2 -> all_miss (s :: rest) w w2.

(** [s] is the first candidate of the list that resolves: the ones before
    it were tried and missed, the ones after it were never tried. *)
Definition first_match (candidates : list str) (w : W) (s : str) (r : R)
    (w' : W) : Prop :=
  exists before after w1,
    candidates = before ++ s :: after /\
    all_miss before w w1 /\
    hit s w1 r w'.

End Fallback.

(** ** What the environment answers to the candidates of each role *)

Section Roles.

Variable W : Type.
Variable h : env W.
Variable d : driver.

(** Input field (specialized strategy): the wait finds an element. *)
Definition input_hit (s : str) (w : W) (e : element) (w' : W) : Prop :=
  h (wait_until_presence d 30 CSS_SELECTOR s) w = (Ok e, w').

Definition input_miss (s : str) (w w' : W) : Prop :=
  exists x, h (wait_until_presence d 30 CSS_SELECTOR s) w = (Raise x, w')
            /\ is_Timeout x = true.

(** Submit control: an element is found and it reports itself enabled. *)
Definition submit_hit (s : str) (w : W) (b : element) (w' : W) : Prop :=
  exists w1, h (find_element d CSS_SELECTOR s) w = (Ok b, w1)
             /\ h (is_enabled b) w1 = (Ok true, w').

Definition submit_miss (s : str) (w w' : W) : Prop :=
  (exists x, h (find_element d CSS_SELECTOR s) w = (Raise x, w')
             /\ is_NoSuchElement x = true)
  \/ (exists b w1, h (find_element d CSS_SELECTOR s) w = (Ok b, w1)
        /\ (h (is_enabled b) w1 = (Ok false, w')
            \/ exists x, h (is_enabled b) w1 = (Raise x, w')
                         /\ is_NoSuchElement x = true)).

(** Response container: the last of the matching elements, in document
    order, has a trimmed text of more than ten characters. *)
Definition response_hit (s : str) (w : W) (r : str) (w' : W) : Prop :=
  exists found newest raw w1,
    h (find_elements d CSS_SELECTOR s) w = (Ok found, w1)
    /\ found <> []
    /\ newest = last found 0
    /\ h (text newest) w1 = (Ok raw, w')
    /\ r = strip raw
    /\ 10 < length r.

Definition response_miss (s : str) (w w' : W) : Prop :=
  (exists x, h (find_elements d CSS_SELECTOR s) w = (Raise x, w'))
  \/ h (find_elements d CSS_SELECTOR s) w = (Ok [], w')
  \/ (exists found w1,
        h (find_elements d CSS_SELECTOR s) w = (Ok found, w1)
        /\ found <> []
        /\ ((exists x, h (text (last found 0)) w1 = (Raise x, w'))
            \/ exists raw, h (text (last found 0)) w1 = (Ok raw, w')
                           /\ length (strip raw) <= 10)).

End Roles.

(** ** Reading traces *)


(** The element an event reports enabled: [is_enabled] answered [True]. *)
Definition reports_enabled (ev : event) : option element :=
  match ev with
  | Ev c r =>
      match c in call R0 return R0 -> option element with
      | is_enabled b =>
          fun r => match r with Ok true => Some b | _ => None end
      | _ => fun _ => None
      end r
  end.



(** An event that talks to a browser: any call but the clock and the random
    generator. *)
Definition is_live (ev : event) : bool :=
  match ev with
  | Ev c _ => match c with time | randbelow _ | sleep _ => false | _ => true end
  end.

(** An event that only looks at the page: it locates elements or reads
    their state. *)
Definition looks_up (ev : event) : bool :=
  match ev with
  | Ev c _ =>
      match c with
      | wait_until_presence _ _ _ _ | find_element _ _ _
      | find_elements _ _ _ | is_enabled _ | is_displayed _ | text _ => true
      | _ => false
      end
  end.

(** The lookup of a field candidate or of the send button found nothing:
    [find_element] by CSS selector or XPath raised [NoSuchElementException]. *)
Definition lookup_missing (ev : event) : bool :=
  match ev with
  | Ev c r =>
      match c in call R0 return R0 -> bool with
      | find_element _ by_ _ =>
          fun r =>
            match by_, r with
            | TAG_NAME, _ => false
            | _, Raise x => is_NoSuchElement x
            | _, Ok _ => false
            end
      | _ => fun _ => false
      end r
  end.

(** The exception of an answer, if the call raised. *)
Definition raised (ev : event) : option exn :=
  match ev with
  | Ev c r =>
      match c in call R0 return R0 -> option exn with
      | webdriver_Chrome _ _ | set_window_size _ _ _ | implicitly_wait _ _
      | driver_get _ _ | driver_quit _ | clear _ | send_keys _ _ | click _ =>
          fun r => match r with Raise x => Some x | Ok _ => None end
      | ChromeDriverManager_install | text _ =>
          fun r => match r with Raise x => Some x | Ok _ => None end
      | wait_until_presence _ _ _ _ | find_element _ _ _ =>
          fun r => match r with Raise x => Some x | Ok _ => None end
      | find_elements _ _ _ =>
          fun r => match r with Raise x => Some x | Ok _ => None end
      | is_enabled _ | is_displayed _ =>
          fun r => match r with Raise x => Some x | Ok _ => None end
      | sleep _ | time | randbelow _ => fun _ => None
      end r
  end.

(** No call of the trace raised, except lookups that found nothing. *)
Definition only_lookups_miss (tr : list event) : Prop :=
  Forall (fun ev => forall x, raised ev = Some x -> lookup_missing ev = true) tr.

(** No element of the trace reported itself enabled. *)
Definition none_enabled (tr : list event) : Prop :=
  Forall (fun ev => reports_enabled ev = None) tr.

(** The trace ends with the given events. *)
Definition ends_with (suffix tr : list event) : Prop :=
  exists before, tr = before ++ suffix.

(** The run returned the tail of the text of the page's body, read last. *)
Definition reads_page_last (W : Type) (d : driver)
    (o : outcome W (res (option str))) : Prop :=
  forall r, result o = Ok (Some r) ->
    exists body page_text,
      ends_with [Ev (find_element d TAG_NAME (py "body")) (Ok body);
                 Ev (text body) (Ok page_text)] (trace o)
      /\ r = SeleniumAgentService.tail_of_page page_text.

(** Without a field that reports itself enabled the run returns nothing. *)
Definition needs_a_field (W : Type) (o : outcome W (res (option str)))
  : Prop :=
  none_enabled (trace o) -> result o = Ok None \/ exists x, result o = Raise x.

(** When no call fails, missing elements apart, the run returns a page
    tail unless no field reported itself enabled. *)
Definition answers_when_nothing_fails (W : Type)
    (o : outcome W (res (option str))) : Prop :=
  only_lookups_miss (trace o) ->
  (none_enabled (trace o) /\ result o = Ok None)
  \/ exists r, result o = Ok (Some r).

(** The shapes of a result object. *)
Definition succeeded (d : dict) : Prop := lookup "success" d = Some (VBool true).

Definition failed_with_error (d : dict) : Prop :=
  lookup "success" d = Some (VBool false)
  /\ (exists description, lookup "error" d = Some (VStr description))
  /\ lookup "response" d = Some VNone.

(* ===================================================================== *)
(** * The command line *)
(* ===================================================================== *)

(** What a run of a script leaves behind: the objects it printed with
    [print(json.dumps(...))], in order, and its exit status. *)
Record process := { printed : list dict; exit_status : nat }.

(** The module [seleniumAgentService.py]. *)
Module seleniumAgentService.

Definition usage : dict :=
  [ ("success"%string, VBool false);
    ("error"%string,
     VStr (py "Uso: python seleniumAgentService.py <agent_url> <message> [agent_id]")) ].

(** [main()], given [sys.argv].  [sys.exit(1)] and an exception that nothing
    catches both end the process with status 1. *)
Definition main (argv : list str) : prog process :=
  if length argv <? 3 then Ret {| printed := [usage]; exit_status := 1 |}
  else
    let agent_url := nth 1 argv [] in
    let message := nth 2 argv [] in
    let agent_id := if 3 <? length argv then Some (nth 3 argv []) else None in
    let service := SeleniumAgentService.__init__ true in
    pbind (SeleniumAgentService.get_agent_response service agent_url message
             agent_id)
      (fun '(result, service) =>
         pbind (SeleniumAgentService.close service) (fun _ =>
           match result with
           | Ok d => Ret {| printed := [d]; exit_status := 0 |}
           | Raise _ => Ret {| printed := []; exit_status := 1 |}
           end)).

End seleniumAgentService.

(** The module [simpleWebScrapingService.py]. *)
Module simpleWebScrapingService.

Definition usage : dict :=
  [ ("success"%string, VBool false);
    ("error"%string,
     VStr (py "Uso: python simpleWebScrapingService.py <agent_url> <message> [agent_id]")) ].

Definition main (L : library) (argv : list str) : prog process :=
  if length argv <? 3 then Ret {| printed := [usage]; exit_status := 1 |}
  else
    let agent_url := nth 1 argv [] in
    let message := nth 2 argv [] in
    let agent_id := if 3 <? length argv then Some (nth 3 argv []) else None in
    pbind (SimpleWebScrapingService.get_agent_response L agent_url message
             agent_id)
      (fun result =>
         match result with
         | Ok d => Ret {| printed := [d]; exit_status := 0 |}
         | Raise _ => Ret {| printed := []; exit_status := 1 |}
         end).

End simpleWebScrapingService.

(** A browser whose window cannot be resized: Chrome starts, and
    [set_window_size] raises. *)
Definition answer_fixed_window : env Synthetic.browser :=
  fun (R : Type) (c : call R) (w : Synthetic.browser) =>
    match c in call R0 return R0 * Synthetic.browser with
    | set_window_size _ _ _ =>
        (Raise (Exn OtherException (py "window is not resizable")), w)
    | other => Synthetic.answer other w
    end.

(** ** Kinds of calls *)

(** Every call of the program is of the given kind, whatever is answered. *)
Fixpoint calls_only {A : Type} (P : forall R : Type, call R -> bool)
    (p : prog A) : Prop :=
  match p with
  | Ret _ => True
  | Call c k => P _ c = true /\ forall r, calls_only P (k r)
  end.

(** Every event of the trace is a call of the given kind. *)
Definition made_of (P : forall R : Type, call R -> bool) (tr : list event)
  : Prop :=
  Forall (fun ev => match ev with Ev c _ => P _ c = true end) tr.

(** The calls that bring a browser up. *)
Definition provisioning (R : Type) (c : call R) : bool :=
  match c with
  | webdriver_Chrome _ _ | ChromeDriverManager_install
  | set_window_size _ _ _ | implicitly_wait _ _ => true
  | _ => false
  end.

(** The calls of an interaction with the page of session [d]: navigation
    and lookups in [d], actions on elements, and pauses. *)
Definition interaction (d : driver) (R : Type) (c : call R) : bool :=
  match c with
  | driver_get d' _ | wait_until_presence d' _ _ _ | find_element d' _ _
  | find_elements d' _ _ => d' =? d
  | clear _ | send_keys _ _ | click _ | is_enabled _ | is_displayed _
  | text _ | sleep _ => true
  | _ => false
  end.

(** The calls a run of [get_agent_response] on a configured instance makes:
    those of the interaction, and the clock. *)
Definition interaction_or_clock (d : driver) (R : Type) (c : call R) : bool :=
  match c with
  | time => true
  | other => interaction d other
  end.

(** The calls that reach no browser. *)
Definition offline (R : Type) (c : call R) : bool :=
  match c with
  | time | randbelow _ => true
  | _ => false
  end.

(** ** Sessions *)

(** The session an event starts, and the session it quits. *)
Definition starts (ev : event) : option driver :=
  match ev with
  | Ev c r =>
      match c in call R0 return R0 -> option driver with
      | webdriver_Chrome _ _ =>
          fun r => match r with Ok d => Some d | Raise _ => None end
      | _ => fun _ => None
      end r
  end.

Definition quits (ev : event) : option driver :=
  match ev with
  | Ev c _ => match c with driver_quit d => Some d | _ => None end
  end.

(** What the events of a trace give under a reading, in order. *)
Fixpoint collect {A : Type} (reading : event -> option A) (tr : list event)
  : list A :=
  match tr with
  | [] => []
  | ev :: rest =>
      match reading ev with
      | Some a => a :: collect reading rest
      | None => collect reading rest
      end
  end.

(** A monitor: a state, and for every event the next state, or [None] when
    the event is not allowed in that state. *)
Fixpoint monitor {S : Type} (step : S -> event -> option S) (s : S)
    (tr : list event) : option S :=
  match tr with
  | [] => Some s
  | ev :: rest =>
      match step s ev with
      | Some s' => monitor step s' rest
      | None => None
      end
  end.

(** The live session of a process: a browser may start only when none is
    live, and only the live one may be quit. *)
Definition session_step (live : option driver) (ev : event)
  : option (option driver) :=
  match starts ev, quits ev, live with
  | Some d, _, None => Some (Some d)
  | Some _, _, Some _ => None
  | None, Some d, Some d' => if d =? d' then Some None else None
  | None, Some _, None => None
  | None, None, _ => Some live
  end.

(** What is known of the field the generic strategy works on. *)
Inductive field_state :=
| Unchecked
| Displayed (e : element)
| Usable (e : element).

(** [is_enabled] is asked of the element that just reported itself
    displayed, and [clear] and [send_keys] act on the element that reported
    itself displayed and enabled. *)
Definition typing_step (s : field_state) (ev : event) : option field_state :=
  match ev with
  | Ev c r =>
      match c in call R0 return R0 -> option field_state with
      | is_displayed e =>
          fun r => match r with
                   | Ok true => Some (Displayed e)
                   | _ => Some Unchecked
                   end
      | is_enabled e =>
          fun r =>
            match s with
            | Displayed e' =>
                if e =? e'
                then match r with
                     | Ok true => Some (Usable e)
                     | _ => Some Unchecked
                     end
                else None
            | _ => None
            end
      | clear e | send_keys e _ =>
          fun _ =>
            match s with
            | Usable e' => if e =? e' then Some s else None
            | _ => None
            end
      | _ => fun _ => Some s
      end r
  end.

(** The calls that leave what is known of the field [e] as it is: anything
    but a question about visibility or enabledness, and typing into [e]
    itself. *)
Definition typing_into (e : element) (R : Type) (c : call R) : bool :=
  match c with
  | is_displayed _ | is_enabled _ => false
  | clear e' | send_keys e' _ => e' =? e
  | _ => true
  end.

(** ** Replies and names *)

(** A reply names the agent, quotes the message between single quotes, and
    is longer than the ten characters a live response must exceed. *)
Definition well_formed_reply (message agent_name reply : str) : Prop :=
  occurs_in agent_name reply
  /\ occurs_in (py "'" ++ message ++ py "'") reply
  /\ 10 < length reply.



(* ===================================================================== *)
(** * Strings *)
(* ===================================================================== *)

Lemma startswith_prefix (p s : str) :
  startswith p s = true <-> exists after, s = p ++ after.
Proof.
  revert s; induction p as [|a p IH]; intros s; simpl.
  - split; [intros _; now exists s | reflexivity].
  - destruct s as [|b s]; simpl.
    + split; [discriminate | intros [after H]; discriminate].
    + rewrite andb_true_iff, N.eqb_eq, IH. split.
      * intros [-> [after ->]]. now exists after.
      * intros [after H]. injection H as -> ->. split; [reflexivity|now exists after].
Qed.

Lemma contains_occurs (sub s : str) :
  contains sub s = true <-> occurs_in sub s.
Proof.
  unfold occurs_in. induction s as [|c s IH]; simpl.
  - rewrite orb_false_r, startswith_prefix. split.
    + intros [after H]. now exists [], after.
    + intros [before [after H]]. destruct before; [now exists after|discriminate].
  - rewrite orb_true_iff, startswith_prefix, IH. split.
    + intros [[after H] | [before [after H]]].
      * now exists [], after.
      * exists (c :: before), after. simpl. now rewrite H.
    + intros [[|b before] [after H]].
      * left. now exists after.
      * right. injection H as _ H. now exists before, after.
Qed.

Lemma contains_not_occurs (sub s : str) :
  contains sub s = false <-> ~ occurs_in sub s.
Proof.
  rewrite <- contains_occurs. destruct (contains sub s); split; intros H.
  - discriminate.
  - now elim H.
  - intros K; discriminate.
  - reflexivity.
Qed.

Lemma str_eqb_eq (a b : str) : str_eqb a b = true <-> a = b.
Proof.
  unfold str_eqb. destruct (list_eq_dec N.eq_dec a b); split;
    intros H; try reflexivity; try assumption; try discriminate; contradiction.
Qed.

Lemma truthy_nonempty (s : str) : truthy s = true <-> s <> [].
Proof.
  destruct s; simpl; split; intros H; try discriminate; try reflexivity.
  now elim H.
Qed.

Lemma last_chars_length (n : nat) (s : str) :
  n <= length s -> length (last_chars n s) = n.
Proof. intros H. unfold last_chars. rewrite length_skipn. lia. Qed.

Lemma last_chars_suffix (n : nat) (s : str) :
  exists front, s = front ++ last_chars n s.
Proof.
  exists (firstn (length s - n) s). unfold last_chars.
  now rewrite firstn_skipn.
Qed.

(* ===================================================================== *)
(** * Runs *)
(* ===================================================================== *)

Section Runs.

Variable W : Type.
Variable h : env W.

Lemma run_pbind {A B : Type} (p : prog A) (f : A -> prog B) (w : W) :
  run h (pbind p f) w =
  let o1 := run h p w in
  let o2 := run h (f (result o1)) (final o1) in
  Outcome (result o2) (final o2) (trace o1 ++ trace o2).
Proof.
  revert w; induction p as [a | R c k IH]; intros w; simpl.
  - now destruct (run h (f a) w).
  - destruct (h c w) as [r w1]. rewrite IH. reflexivity.
Qed.

Lemma run_perform {R : Type} (c : call (res R)) (w : W) :
  run h (perform c) w =
  Outcome (fst (h c w)) (snd (h c w)) [Ev c (fst (h c w))].
Proof. unfold perform. simpl. now destruct (h c w). Qed.

Lemma run_perform' {R : Type} (c : call R) (w : W) :
  run h (perform' c) w =
  Outcome (Ok (fst (h c w))) (snd (h c w)) [Ev c (fst (h c w))].
Proof. unfold perform'. simpl. now destruct (h c w). Qed.

Lemma run_bind {A B : Type} (m : M A) (f : A -> M B) (w : W) :
  run h (bind m f) w =
  let o1 := run h m w in
  match result o1 with
  | Ok a =>
      let o2 := run h (f a) (final o1) in
      Outcome (result o2) (final o2) (trace o1 ++ trace o2)
  | Raise e => Outcome (Raise e) (final o1) (trace o1)
  end.
Proof.
  unfold bind. rewrite run_pbind. cbv zeta.
  destruct (result (run h m w)); simpl; [reflexivity|].
  now rewrite app_nil_r.
Qed.

Lemma run_try {A : Type} (m : M A) (handler : exn -> M A) (w : W) :
  run h (try_ m handler) w =
  let o1 := run h m w in
  match result o1 with
  | Ok a => Outcome (Ok a) (final o1) (trace o1)
  | Raise e =>
      let o2 := run h (handler e) (final o1) in
      Outcome (result o2) (final o2) (trace o1 ++ trace o2)
  end.
Proof.
  unfold try_. rewrite run_pbind. cbv zeta.
  destruct (result (run h m w)); simpl; [|reflexivity].
  now rewrite app_nil_r.
Qed.

Lemma run_ret {A : Type} (a : A) (w : W) :
  run h (ret a) w = Outcome (Ok a) w [].
Proof. reflexivity. Qed.

Lemma run_raise {A : Type} (e : exn) (w : W) :
  run h (@raise A e) w = Outcome (Raise e) w [].
Proof. reflexivity. Qed.

End Runs.

(** Unfolds the run of a sequence of steps up to the next answer of the
    environment. *)
Ltac run_steps :=
  repeat first
    [ rewrite run_bind | rewrite run_try | rewrite run_perform
    | rewrite run_perform' | rewrite run_ret | rewrite run_raise
    | progress cbv zeta
    | progress cbn [result final trace fst snd app negb] ].

(* ===================================================================== *)
(** * The agent classifier *)
(* ===================================================================== *)

Lemma detect_agent_type_same (agent_url : str) :
  SimpleWebScrapingService._detect_agent_type agent_url
  = SeleniumAgentService._detect_agent_type agent_url.
Proof. reflexivity. Qed.

(** C2.  [_detect_agent_type], in both services, is a total function of the
    URL alone: a URL in which ["chatgpt.com"] or ["openai.com"] occurs is
    [chatgpt]; otherwise one in which ["claude.ai"] occurs is [claude];
    otherwise one in which ["bard.google.com"] or ["gemini.google.com"]
    occurs is [gemini]; every other URL is [unknown].  The checks are made
    in that order and the first that matches decides; the answer is always
    one of the four categories. *)
Theorem detect_agent_type_classifies : forall agent_url : str,
  let category := SeleniumAgentService._detect_agent_type agent_url in
  let has := fun fragment : string => occurs_in (py fragment) agent_url in
  SimpleWebScrapingService._detect_agent_type agent_url = category
  /\ (has "chatgpt.com"%string \/ has "openai.com"%string ->
      category = py "chatgpt")
  /\ (~ (has "chatgpt.com"%string \/ has "openai.com"%string) ->
      has "claude.ai"%string ->
      category = py "claude")
  /\ (~ (has "chatgpt.com"%string \/ has "openai.com"%string) ->
      ~ has "claude.ai"%string ->
      has "bard.google.com"%string \/ has "gemini.google.com"%string ->
      category = py "gemini")
  /\ (~ (has "chatgpt.com"%string \/ has "openai.com"%string) ->
      ~ has "claude.ai"%string ->
      ~ (has "bard.google.com"%string \/ has "gemini.google.com"%string) ->
      category = py "unknown")
  /\ In category [py "chatgpt"; py "claude"; py "gemini"; py "unknown"].
Proof.
  intros agent_url category has. subst category has. cbv beta.
  split; [apply detect_agent_type_same|].
  unfold SeleniumAgentService._detect_agent_type.
  rewrite <- !contains_occurs.
  destruct (contains (py "chatgpt.com") agent_url);
    destruct (contains (py "openai.com") agent_url);
    destruct (contains (py "claude.ai") agent_url);
    destruct (contains (py "bard.google.com") agent_url);
    destruct (contains (py "gemini.google.com") agent_url);
    cbn [orb];
    repeat split; intros;
    repeat match goal with
      | H : ~ _ |- _ => try (elim H; auto; fail); clear H
      | H : _ \/ _ |- _ => destruct H
      | H : false = true |- _ => discriminate H
      end;
    try reflexivity;
    cbn [In]; auto.
Qed.

(** The classifier on a fixture of URLs, one per branch, with a URL that
    carries fragments of two categories. *)
Lemma detect_agent_type_fixture :
  SeleniumAgentService._detect_agent_type (py "https://chatgpt.com/g/g-1-demo")
    = py "chatgpt"
  /\ SeleniumAgentService._detect_agent_type (py "https://platform.openai.com/")
    = py "chatgpt"
  /\ SeleniumAgentService._detect_agent_type (py "https://claude.ai/chat")
    = py "claude"
  /\ SeleniumAgentService._detect_agent_type (py "https://gemini.google.com/app")
    = py "gemini"
  /\ SeleniumAgentService._detect_agent_type (py "https://bard.google.com/")
    = py "gemini"
  /\ SeleniumAgentService._detect_agent_type
       (py "https://claude.ai/?from=chatgpt.com") = py "chatgpt"
  /\ SeleniumAgentService._detect_agent_type (py "https://example.com")
    = py "unknown".
Proof. vm_compute. repeat split. Qed.

(* ===================================================================== *)
(** * The simulated responder *)
(* ===================================================================== *)

Section Responder.

Variable L : library.

(** Every category of the table has three templates, and the category
    chosen from the name is one of the table. *)
Lemma response_templates_three (message agent_name : str) :
  let table := SimpleWebScrapingService.responses message agent_name in
  length
    (SimpleWebScrapingService.responses_get
       (SimpleWebScrapingService.response_category L agent_name) table
       (SimpleWebScrapingService.responses_get (py "chatgpt") table []))
  = 3.
Proof.
  unfold SimpleWebScrapingService.response_category.
  repeat match goal with
         | |- context [if ?b then _ else _] => destruct b
         end; reflexivity.
Qed.

Lemma run_random_choice (W : Type) (h : env W) (w : W) (seq : list str) :
  seq <> [] ->
  run h (SimpleWebScrapingService.random_choice seq) w =
  let i := fst (h _ (randbelow (length seq)) w) in
  Outcome
    match nth_error seq i with
    | Some x => Ok x
    | None => Raise (Exn IndexError (py "list index out of range"))
    end
    (snd (h _ (randbelow (length seq)) w))
    [Ev (randbelow (length seq)) i].
Proof.
  intros Hne. destruct seq as [|s0 seq]; [contradiction|].
  unfold SimpleWebScrapingService.random_choice.
  rewrite run_bind, run_perform'. cbv zeta. cbn [result final trace].
  destruct (nth_error (s0 :: seq) _); reflexivity.
Qed.

Lemma run_generate (W : Type) (h : env W) (w : W)
    (message agent_type agent_name : str) :
  run h (SimpleWebScrapingService._generate_simulated_response L message
           agent_type agent_name) w =
  let table := SimpleWebScrapingService.responses message agent_name in
  let templates :=
    SimpleWebScrapingService.responses_get
      (SimpleWebScrapingService.response_category L agent_name) table
      (SimpleWebScrapingService.responses_get (py "chatgpt") table []) in
  let i := fst (h _ (randbelow 3) w) in
  Outcome
    match nth_error templates i with
    | Some x => Ok x
    | None => Raise (Exn IndexError (py "list index out of range"))
    end
    (snd (h _ (randbelow 3) w))
    [Ev (randbelow 3) i].
Proof.
  unfold SimpleWebScrapingService._generate_simulated_response.
  cbv zeta.
  pose proof (response_templates_three message agent_name) as H3.
  cbv zeta in H3.
  rewrite run_random_choice.
  - cbv zeta. rewrite H3. reflexivity.
  - intros E. rewrite E in H3. discriminate.
Qed.

End Responder.

(** C3, as the code has it.  [_generate_simulated_response] draws one index
    below 3 from the shared random generator and does nothing else; its
    result is decided by the message, the display name and that draw, and
    the category argument is not read.  So two calls with the same message
    and name that draw the same index return the same string, and a draw
    below 3 always gives a string. *)
Theorem generate_decided_by_the_draw :
  forall (L : library) (W W' : Type) (h : env W) (h' : env W') (w : W)
         (w' : W') (message agent_type agent_type' agent_name : str),
    fst (h _ (randbelow 3) w) = fst (h' _ (randbelow 3) w') ->
    let o := run h (SimpleWebScrapingService._generate_simulated_response
                      L message agent_type agent_name) w in
    let o' := run h' (SimpleWebScrapingService._generate_simulated_response
                        L message agent_type' agent_name) w' in
    result o = result o'
    /\ trace o = [Ev (randbelow 3) (fst (h _ (randbelow 3) w))]
    /\ final o = snd (h _ (randbelow 3) w)
    /\ (fst (h _ (randbelow 3) w) < 3 -> exists reply, result o = Ok reply).
Proof.
  intros L W W' h h' w w' message agent_type agent_type' agent_name Hdraw o o'.
  subst o o'. rewrite !run_generate. cbv zeta. cbn [result final trace].
  rewrite Hdraw. repeat split.
  intros Hlt.
  pose proof (response_templates_three L message agent_name) as H3.
  cbv zeta in H3.
  destruct (nth_error _ _) as [reply|] eqn:E; [now exists reply|].
  apply nth_error_None in E. rewrite H3 in E. lia.
Qed.

(** Two environments that draw the same index, two different category
    arguments: the same reply. *)
Lemma generate_with_equal_draws :
  let w := Synthetic.browser_with true [] [1] in
  let w' := Synthetic.browser_with false Synthetic.chat_page [1; 2] in
  let o := run Synthetic.answer
             (SimpleWebScrapingService._generate_simulated_response
                Synthetic.ascii_library (py "hola") (py "chatgpt") (py "Bot")) w in
  let o' := run Synthetic.answer
              (SimpleWebScrapingService._generate_simulated_response
                 Synthetic.ascii_library (py "hola") (py "unknown") (py "Bot")) w' in
  result o = result o'
  /\ trace o = [Ev (randbelow 3) 1]
  /\ final o = Synthetic.drawn w
  /\ (1 < 3 -> exists reply, result o = Ok reply).
Proof.
  exact (@generate_decided_by_the_draw Synthetic.ascii_library _ _
           Synthetic.answer Synthetic.answer
           (Synthetic.browser_with true [] [1])
           (Synthetic.browser_with false Synthetic.chat_page [1; 2])
           (py "hola") (py "chatgpt") (py "unknown") (py "Bot") eq_refl).
Defined.

(** C3, as the specification states it, fails: the same three arguments,
    two calls in a row, two different strings; and the call is seen by the
    random generator, whose state it changes. *)
Lemma generate_differs_between_calls :
  let w := Synthetic.browser_with true [] [0; 1] in
  let generate :=
    SimpleWebScrapingService._generate_simulated_response
      Synthetic.ascii_library (py "hola") (py "chatgpt") (py "Bot") in
  let first := run Synthetic.answer generate w in
  let second := run Synthetic.answer generate (final first) in
  result first <> result second
  /\ trace first <> []
  /\ final first <> w.
Proof.
  vm_compute. repeat split; intros H; discriminate H.
Qed.

(* ===================================================================== *)
(** * Resolving the response container *)
(* ===================================================================== *)

Lemma last_cons_default (l : list element) (a dflt : element) :
  last (a :: l) dflt = last l a.
Proof.
  revert a dflt. induction l as [|b l IH]; intros a dflt; [reflexivity|].
  change (last (a :: b :: l) dflt) with (last (b :: l) dflt).
  now rewrite !IH.
Qed.

Lemma last_element_last (found : list element) :
  found <> [] ->
  SeleniumAgentService.last_element found = Some (last found 0).
Proof.
  destruct found as [|e l]; [contradiction|]. intros _.
  unfold SeleniumAgentService.last_element. now rewrite last_cons_default.
Qed.

Section ResponseContainer.

Variable W : Type.
Variable h : env W.
Variable d : driver.

(** One candidate: its turn of the loop returns the trimmed text of the
    last matching element when that text has more than ten characters, and
    falls through to the next candidate otherwise; no exception leaves it. *)
Lemma run_try_response_selector (s : str) (w : W) :
  let o := run h (SeleniumAgentService.try_response_selector d s) w in
  (exists r, result o = Ok (Some r) /\ response_hit h d s w r (final o))
  \/ (result o = Ok None /\ response_miss h d s w (final o)).
Proof.
  cbv zeta. unfold SeleniumAgentService.try_response_selector.
  unfold response_hit, response_miss.
  rewrite run_try, run_bind, run_perform. cbv zeta. cbn [result final trace].
  destruct (h (find_elements d CSS_SELECTOR s) w) as [[found|x] w1] eqn:E;
    cbn [fst snd result final trace].
  2:{ right. split; [reflexivity|]. left. now exists x. }
  destruct found as [|e l] eqn:F.
  { cbn. right. split; [reflexivity|]. right. now left. }
  rewrite <- F in *. assert (Hne : found <> []) by (rewrite F; discriminate).
  rewrite (last_element_last Hne).
  rewrite run_bind, run_perform. cbv zeta. cbn [result final trace].
  destruct (h (text (last found 0)) w1) as [[raw|x] w2] eqn:T;
    cbn [fst snd result final trace].
  2:{ right. split; [reflexivity|]. right. right.
      exists found, w1. repeat split; auto. left. now exists x. }
  destruct (truthy (strip raw) && (10 <? length (strip raw))) eqn:C;
    run_steps.
  - left. exists (strip raw). split; [reflexivity|].
    apply andb_true_iff in C. destruct C as [_ C]. apply Nat.ltb_lt in C.
    exists found, (last found 0), raw, w1. repeat split; auto.
  - right. split; [reflexivity|]. right. right.
    exists found, w1. repeat split; auto. right. exists raw. split; [exact T|].
    apply andb_false_iff in C. destruct C as [C|C].
    + destruct (strip raw); [simpl; lia | discriminate].
    + apply Nat.ltb_ge in C. exact C.
Qed.

End ResponseContainer.

(** C4, as the code has it.  The candidates for the response container are
    tried in order.  A candidate resolves exactly when the last of its
    matching elements, in document order, has a trimmed text longer than ten
    characters, and that trimmed text is what is returned, by the first
    candidate that resolves.  A candidate with no matching element, whose
    lookup or text raises, or whose last element has a trimmed text of ten
    characters or fewer is a non-match and the next candidate is tried; when
    every candidate has missed, the result is [None], the failed outcome. *)
Theorem read_response_ordered_fallback :
  forall (W : Type) (h : env W) (d : driver) (candidates : list str) (w : W),
    let o := run h (SeleniumAgentService.read_response d candidates) w in
    (exists s r,
        first_match (response_hit h d) (response_miss h d)
          candidates w s r (final o)
        /\ result o = Ok (Some r))
    \/ (all_miss (response_miss h d) candidates w (final o)
        /\ result o = Ok None).
Proof.
  intros W h d candidates. induction candidates as [|s rest IH]; intros w o.
  - right. split; [constructor | reflexivity].
  - subst o. cbn [SeleniumAgentService.read_response].
    rewrite run_bind. cbv zeta.
    destruct (run_try_response_selector h d s w) as [[r [Hr Hhit]] | [Hr Hmiss]];
      rewrite Hr.
    + left. exists s, r. cbn [run result final trace]. split; [|reflexivity].
      exists [], rest, w. repeat split; [constructor | exact Hhit].
    + cbn [result final trace].
      destruct (IH (final (run h (SeleniumAgentService.try_response_selector d s) w)))
        as [[s' [r [[before [after [w1 [Hsplit [Hmisses Hhit]]]]] Hres]]] | [Hall Hres]].
      * left. exists s', r. split; [|exact Hres].
        exists (s :: before), after, w1. repeat split.
        -- now rewrite Hsplit.
        -- econstructor; eassumption.
        -- exact Hhit.
      * right. split; [|exact Hres]. econstructor; eassumption.
Qed.

(** On the chat page the first candidate matches two replies; the text of
    the last one, trimmed, is what comes back. *)
Lemma newest_reply_is_returned :
  let w := Synthetic.browser_with true Synthetic.chat_page [] in
  fst (Synthetic.answer (find_elements 0 CSS_SELECTOR (py ".markdown.prose")) w)
  = Ok [2; 3]
  /\ result (run Synthetic.answer
               (SeleniumAgentService.read_response 0
                  SeleniumAgentService.response_selectors) w)
     = Ok (Some (py "The newest reply of the assistant.")).
Proof. vm_compute. split; reflexivity. Qed.

(** C4, as the specification states it, fails.  On the page below the first
    candidate matches two elements; the earlier one has a trimmed text
    longer than ten characters, the last one has not.  The candidate is a
    non-match all the same, no other candidate matches, and the interaction
    fails. *)
Lemma newest_short_reply_hides_a_complete_one :
  let w := Synthetic.browser_with true Synthetic.streaming_page [] in
  let s := py ".markdown.prose" in
  let self := SeleniumAgentService.set_driver (SeleniumAgentService.__init__ true) 0 in
  fst (Synthetic.answer (find_elements 0 CSS_SELECTOR s) w) = Ok [2; 3]
  /\ (exists raw, fst (Synthetic.answer (text 2) w) = Ok raw
                  /\ 10 < length (strip raw))
  /\ result (run Synthetic.answer
               (SeleniumAgentService.try_response_selector 0 s) w) = Ok None
  /\ result (run Synthetic.answer
               (SeleniumAgentService.read_response 0
                  SeleniumAgentService.response_selectors) w) = Ok None
  /\ result (run Synthetic.answer
               (SeleniumAgentService._handle_chatgpt_interaction self
                  (py "https://chatgpt.com/") (py "hola")) w) = None.
Proof.
  cbv zeta. split; [reflexivity|]. split.
  - eexists. split; [reflexivity|]. vm_compute. lia.
  - vm_compute. repeat split.
Qed.

(* ===================================================================== *)
(** * Resolving the input field and the submit control *)
(* ===================================================================== *)


Section Candidates.

Variable W : Type.
Variable h : env W.
Variable d : driver.

(** The loop over [text_selectors]. *)
Lemma find_text_area_fallback (candidates : list str) (w : W) :
  let o := run h (SeleniumAgentService.find_text_area d candidates) w in
  (exists s e,
      first_match (input_hit h d) (input_miss h d) candidates w s e (final o)
      /\ result o = Ok (Some e))
  \/ (all_miss (input_miss h d) candidates w (final o) /\ result o = Ok None)
  \/ (exists x, result o = Raise x /\ is_Timeout x = false).
Proof.
  revert w. induction candidates as [|s rest IH]; intros w o; subst o.
  - right. left. split; [constructor | reflexivity].
  - cbn [SeleniumAgentService.find_text_area]. run_steps.
    destruct (h (wait_until_presence d 30 CSS_SELECTOR s) w) as [[e|x] w1] eqn:E;
      run_steps.
    + left. exists s, e. split; [|reflexivity].
      exists [], rest, w. repeat split; [constructor | exact E].
    + destruct (is_Timeout x) eqn:T; run_steps.
      * assert (Hmiss : input_miss h d s w w1) by (exists x; auto).
        destruct (IH w1) as [[s' [e [[before [after [w2 [Hs [Hm Hh]]]]] Hr]]]
                            | [[Hall Hr] | [x' [Hr Hx']]]].
        -- left. exists s', e. split; [|exact Hr].
           exists (s :: before), after, w2. repeat split.
           ++ now rewrite Hs.
           ++ econstructor; eassumption.
           ++ exact Hh.
        -- right. left. split; [|exact Hr]. econstructor; eassumption.
        -- right. right. exists x'. auto.
      * right. right. exists x. auto.
Qed.

Lemma find_text_area_looks_up (candidates : list str) (w : W) :
  Forall (fun ev => looks_up ev = true)
    (trace (run h (SeleniumAgentService.find_text_area d candidates) w)).
Proof.
  revert w. induction candidates as [|s rest IH]; intros w.
  - constructor.
  - cbn [SeleniumAgentService.find_text_area]. run_steps.
    destruct (h (wait_until_presence d 30 CSS_SELECTOR s) w) as [[e|x] w1];
      run_steps.
    + repeat constructor.
    + constructor; [reflexivity|].
      destruct (is_Timeout x); run_steps; [apply IH | constructor].
Qed.

(** The loop over [send_selectors]. *)
Lemma find_send_button_fallback (candidates : list str)
    (send_button : option element) (w : W) :
  let o := run h (SeleniumAgentService.find_send_button d candidates send_button) w in
  (exists s b,
      first_match (submit_hit h d) (submit_miss h d) candidates w s b (final o)
      /\ result o = Ok (Some b))
  \/ (all_miss (submit_miss h d) candidates w (final o)
      /\ exists leftover, result o = Ok leftover)
  \/ (exists x, result o = Raise x /\ is_NoSuchElement x = false).
Proof.
  revert send_button w.
  induction candidates as [|s rest IH]; intros send_button w o; subst o.
  - right. left. split; [constructor | now exists send_button].
  - cbn [SeleniumAgentService.find_send_button].
    rewrite run_pbind. run_steps.
    assert (Hnext : forall acc w1, submit_miss h d s w w1 ->
      let o := run h (SeleniumAgentService.find_send_button d rest acc) w1 in
      (exists s' b,
          first_match (submit_hit h d) (submit_miss h d) (s :: rest) w s' b (final o)
          /\ result o = Ok (Some b))
      \/ (all_miss (submit_miss h d) (s :: rest) w (final o)
          /\ exists leftover, result o = Ok leftover)
      \/ (exists x, result o = Raise x /\ is_NoSuchElement x = false)).
    { intros acc w1 Hmiss o.
      destruct (IH acc w1) as [[s' [b [[before [after [w2 [Hs [Hm Hh]]]]] Hr]]]
                              | [[Hall Hr] | Hx]].
      - left. exists s', b. split; [|exact Hr].
        exists (s :: before), after, w2. repeat split.
        + now rewrite Hs.
        + econstructor; eassumption.
        + exact Hh.
      - right. left. split; [|exact Hr]. econstructor; eassumption.
      - right. right. exact Hx. }
    destruct (h (find_element d CSS_SELECTOR s) w) as [[b|x] w1] eqn:E;
      run_steps.
    + rewrite run_pbind. run_steps.
      destruct (h (is_enabled b) w1) as [[[|]|x] w2] eqn:En; run_steps.
      * left. exists s, b. split; [|reflexivity].
        exists [], rest, w. repeat split; [constructor|]. now exists w1.
      * apply Hnext. right. exists b, w1. auto.
      * destruct (is_NoSuchElement x) eqn:N; run_steps.
        -- apply Hnext. right. exists b, w1. split; [exact E|].
           right. now exists x.
        -- right. right. now exists x.
    + destruct (is_NoSuchElement x) eqn:N; run_steps.
      * apply Hnext. left. now exists x.
      * right. right. now exists x.
Qed.

Lemma find_send_button_looks_up (candidates : list str)
    (send_button : option element) (w : W) :
  Forall (fun ev => looks_up ev = true)
    (trace (run h (SeleniumAgentService.find_send_button d candidates send_button) w)).
Proof.
  revert send_button w.
  induction candidates as [|s rest IH]; intros send_button w.
  - constructor.
  - cbn [SeleniumAgentService.find_send_button].
    rewrite run_pbind. run_steps.
    destruct (h (find_element d CSS_SELECTOR s) w) as [[b|x] w1]; run_steps.
    + constructor; [reflexivity|]. rewrite run_pbind. run_steps.
      destruct (h (is_enabled b) w1) as [[[|]|x] w2]; run_steps;
        (constructor; [reflexivity|]); try apply IH; try constructor.
      destruct (is_NoSuchElement x); run_steps; [apply IH | constructor].
    + constructor; [reflexivity|].
      destruct (is_NoSuchElement x); run_steps; [apply IH | constructor].
Qed.

Lemma try_response_selector_looks_up (s : str) (w : W) :
  Forall (fun ev => looks_up ev = true)
    (trace (run h (SeleniumAgentService.try_response_selector d s) w)).
Proof.
  unfold SeleniumAgentService.try_response_selector. run_steps.
  destruct (h (find_elements d CSS_SELECTOR s) w) as [[found|x] w1]; run_steps.
  2:{ repeat constructor. }
  destruct (SeleniumAgentService.last_element found) as [newest|]; run_steps.
  2:{ repeat constructor. }
  destruct (h (text newest) w1) as [[raw|x] w2]; run_steps.
  2:{ repeat constructor. }
  destruct (truthy (strip raw) && (10 <? length (strip raw))); run_steps;
    repeat constructor.
Qed.

Lemma try_response_selector_never_raises (s : str) (w : W) :
  exists found,
    result (run h (SeleniumAgentService.try_response_selector d s) w) = Ok found
    /\ forall r, found = Some r -> 10 < length r.
Proof.
  destruct (run_try_response_selector h d s w) as [[r [Hr Hhit]] | [Hr _]];
    rewrite Hr; eexists; split; try reflexivity; intros r' E; [|discriminate].
  injection E as <-.
  destruct Hhit as [found [newest [raw [w1 [_ [_ [_ [_ [_ Hlen]]]]]]]]].
  exact Hlen.
Qed.

Lemma read_response_looks_up (candidates : list str) (w : W) :
  Forall (fun ev => looks_up ev = true)
    (trace (run h (SeleniumAgentService.read_response d candidates) w)).
Proof.
  revert w. induction candidates as [|s rest IH]; intros w.
  - constructor.
  - cbn [SeleniumAgentService.read_response]. rewrite run_bind. cbv zeta.
    pose proof (try_response_selector_looks_up s w) as Ht.
    destruct (result (run h (SeleniumAgentService.try_response_selector d s) w))
      as [[r|]|x]; run_steps.
    + now rewrite app_nil_r.
    + apply Forall_app. split; [exact Ht | apply IH].
    + exact Ht.
Qed.

(** What [read_response] returns is longer than ten characters, and it
    never raises. *)
Lemma read_response_long (candidates : list str) (w : W) :
  exists found,
    result (run h (SeleniumAgentService.read_response d candidates) w) = Ok found
    /\ forall r, found = Some r -> 10 < length r.
Proof.
  revert w. induction candidates as [|s rest IH]; intros w.
  - exists None. split; [reflexivity | discriminate].
  - cbn [SeleniumAgentService.read_response]. rewrite run_bind. cbv zeta.
    destruct (try_response_selector_never_raises s w) as [found [Hr Hlen]].
    rewrite Hr. destruct found as [r|]; run_steps.
    + exists (Some r). split; [reflexivity | exact Hlen].
    + apply IH.
Qed.

End Candidates.

(** C5, as the code has it.  Both loops are a strict ordered fallback over
    the list they are given: the element they resolve comes from the first
    candidate, in list order, that matches, whatever the later candidates
    would match.  What "matches" means depends on the role.  For the input
    field a candidate matches when the wait finds an element in the page
    before it times out; whether that element is enabled is not looked at.
    For the submit control a candidate matches when an element is found and
    reports itself enabled.  When every candidate has missed, the input loop
    gives [None] and the submit loop gives what it found last, or [None]. *)
Theorem selector_loops_ordered_fallback :
  forall (W : Type) (h : env W) (d : driver) (candidates : list str) (w : W),
    (let o := run h (SeleniumAgentService.find_text_area d candidates) w in
     (exists s e,
         first_match (input_hit h d) (input_miss h d) candidates w s e (final o)
         /\ result o = Ok (Some e))
     \/ (all_miss (input_miss h d) candidates w (final o)
         /\ result o = Ok None)
     \/ (exists x, result o = Raise x /\ is_Timeout x = false))
    /\
    (let o := run h (SeleniumAgentService.find_send_button d candidates None) w in
     (exists s b,
         first_match (submit_hit h d) (submit_miss h d) candidates w s b (final o)
         /\ result o = Ok (Some b))
     \/ (all_miss (submit_miss h d) candidates w (final o)
         /\ exists leftover, result o = Ok leftover)
     \/ (exists x, result o = Raise x /\ is_NoSuchElement x = false)).
Proof.
  intros W h d candidates w. split.
  - apply find_text_area_fallback.
  - apply find_send_button_fallback.
Qed.

(** The submit loop passes over a disabled first candidate and resolves the
    enabled later one; the interaction clicks that one and succeeds. *)
Lemma later_enabled_button_is_resolved :
  let w := Synthetic.browser_with true Synthetic.two_buttons_page [] in
  let self := SeleniumAgentService.set_driver (SeleniumAgentService.__init__ true) 0 in
  result (run Synthetic.answer
            (SeleniumAgentService.find_send_button 0
               SeleniumAgentService.send_selectors None) w) = Ok (Some 2)
  /\ Synthetic.clicked
       (final (run Synthetic.answer
                 (SeleniumAgentService._handle_chatgpt_interaction self
                    (py "https://chatgpt.com/") (py "hola")) w)) = [2].
Proof. vm_compute. split; reflexivity. Qed.

(** C5, as the specification states it, fails for the input field.  On the
    page below the first candidate matches a field that is not enabled and
    the third candidate matches a field that is.  The loop returns the
    disabled field of the first candidate, not the first candidate that
    matches a live, enabled element. *)
Lemma disabled_input_is_resolved_first :
  let w := Synthetic.browser_with true Synthetic.two_inputs_page [] in
  result (run Synthetic.answer
            (SeleniumAgentService.find_text_area 0
               SeleniumAgentService.text_selectors) w) = Ok (Some 0)
  /\ fst (Synthetic.answer (is_enabled 0) w) = Ok false
  /\ nth_error SeleniumAgentService.text_selectors 2 = Some (py "#prompt-textarea")
  /\ fst (Synthetic.answer
            (wait_until_presence 0 30 CSS_SELECTOR (py "#prompt-textarea")) w)
     = Ok 1
  /\ fst (Synthetic.answer (is_enabled 1) w) = Ok true.
Proof. vm_compute. repeat split. Qed.

(* ===================================================================== *)
(** * The submit control is enabled when it is clicked *)
(* ===================================================================== *)





Section Specialized.

Variable W : Type.
Variable h : env W.



End Specialized.



(* ===================================================================== *)
(** * The generic interaction *)
(* ===================================================================== *)

Lemma tail_of_page_short (page_text : str) :
  length page_text <= 500 ->
  SeleniumAgentService.tail_of_page page_text = page_text.
Proof.
  intros H. unfold SeleniumAgentService.tail_of_page.
  destruct (500 <? length page_text) eqn:E; [|reflexivity].
  apply Nat.ltb_lt in E. lia.
Qed.

Lemma tail_of_page_long (page_text : str) :
  500 < length page_text ->
  length (SeleniumAgentService.tail_of_page page_text) = 500
  /\ exists front, page_text = front ++ SeleniumAgentService.tail_of_page page_text.
Proof.
  intros H. unfold SeleniumAgentService.tail_of_page.
  apply Nat.ltb_lt in H. rewrite H. apply Nat.ltb_lt in H. split.
  - apply last_chars_length. lia.
  - apply last_chars_suffix.
Qed.

Lemma tail_of_page_bounded (page_text : str) :
  length (SeleniumAgentService.tail_of_page page_text) <= 500.
Proof.
  destruct (le_lt_dec (length page_text) 500) as [H|H].
  - now rewrite tail_of_page_short.
  - destruct (@tail_of_page_long page_text H) as [-> _]. lia.
Qed.

Section Generic.

Variable W : Type.
Variable h : env W.
Variable d : driver.

Lemma read_page_cases (w : W) :
  let o := run h (SeleniumAgentService.read_page d) w in
  none_enabled (trace o)
  /\ ((exists body page_text,
          trace o = [Ev (find_element d TAG_NAME (py "body")) (Ok body);
                     Ev (text body) (Ok page_text)]
          /\ result o = Ok (SeleniumAgentService.tail_of_page page_text))
      \/ ((exists x, result o = Raise x) /\ ~ only_lookups_miss (trace o))).
Proof.
  cbv zeta. unfold SeleniumAgentService.read_page. run_steps.
  destruct (h (find_element d TAG_NAME (py "body")) w) as [[body|x] w1];
    run_steps.
  - destruct (h (text body) w1) as [[page_text|x] w2]; run_steps.
    + split; [repeat constructor|]. left. now exists body, page_text.
    + split; [repeat constructor|]. right. split; [now exists x|].
      intros H. inversion H as [|? ? _ H']; subst.
      inversion H' as [|? ? Hx _]; subst. specialize (Hx x eq_refl).
      discriminate.
  - split; [repeat constructor|]. right. split; [now exists x|].
    intros H. inversion H as [|? ? Hx _]; subst. specialize (Hx x eq_refl).
    discriminate.
Qed.

Lemma ends_with_here (suffix : list event) : ends_with suffix suffix.
Proof. now exists []. Qed.

Lemma ends_with_cons (suffix tr : list event) (ev : event) :
  ends_with suffix tr -> ends_with suffix (ev :: tr).
Proof. intros [before ->]. now exists (ev :: before). Qed.

Lemma ends_with_app (suffix tr1 tr2 : list event) :
  ends_with suffix tr2 -> ends_with suffix (tr1 ++ tr2).
Proof. intros [before ->]. exists (tr1 ++ before). now rewrite app_assoc. Qed.

(** Closes a goal from a trace that cannot be free of failures: one of its
    events raised something other than a missing lookup. *)
Ltac not_benign H :=
  unfold only_lookups_miss in H;
  repeat match type of H with
    | Forall _ (_ ++ _) =>
        let H1 := fresh "H" in
        apply Forall_app in H; destruct H as [H1 H]
    | Forall _ (_ :: _) =>
        let Hx := fresh "Hx" in
        let H' := fresh "H" in
        inversion H as [|? ? Hx H']; subst; clear H; rename H' into H;
        try (specialize (Hx _ eq_refl); cbn in Hx; congruence); clear Hx
    end;
  try match goal with
      | Hn : ~ only_lookups_miss _ |- _ =>
          exfalso; apply Hn; unfold only_lookups_miss; assumption
      end.

Ltac quiet_trace :=
  unfold none_enabled in *;
  repeat first
    [ apply Forall_nil
    | assumption
    | apply Forall_cons; [reflexivity|]
    | apply Forall_app; split ].

Ltac page_read_last :=
  repeat first
    [ apply ends_with_here
    | assumption
    | apply ends_with_cons
    | apply ends_with_app ].

(** Clicking the send button, or the newline, and reading the page: the
    tail of the page comes back, or a call failed. *)
Lemma submit_and_read_cases (text_area : element) (w : W) :
  let o := run h (SeleniumAgentService.submit_and_read d text_area) w in
  none_enabled (trace o)
  /\ ((exists body page_text,
          ends_with [Ev (find_element d TAG_NAME (py "body")) (Ok body);
                     Ev (text body) (Ok page_text)] (trace o)
          /\ result o = Ok (Some (SeleniumAgentService.tail_of_page page_text)))
      \/ ((exists x, result o = Raise x) /\ ~ only_lookups_miss (trace o))).
Proof.
  cbv zeta. unfold SeleniumAgentService.submit_and_read.
  assert (Enter : forall w0,
    let o := run h (perform (send_keys text_area [10%N]) ;;
                    perform' (sleep 3) ;;
                    page <- SeleniumAgentService.read_page d ;;
                    ret (Some page)) w0 in
    none_enabled (trace o)
    /\ ((exists body page_text,
            ends_with [Ev (find_element d TAG_NAME (py "body")) (Ok body);
                       Ev (text body) (Ok page_text)] (trace o)
            /\ result o = Ok (Some (SeleniumAgentService.tail_of_page page_text)))
        \/ ((exists x, result o = Raise x) /\ ~ only_lookups_miss (trace o)))).
  { intros w0. run_steps.
    destruct (h (send_keys text_area [10%N]) w0) as [[[]|x] w1]; run_steps.
    2:{ split; [quiet_trace|]. right. split; [now exists x|].
        intros H. not_benign H. }
    destruct (h (sleep 3) w1) as [[] w2]. run_steps.
    destruct (read_page_cases w2) as [Hq [[body [page_text [Htr Hr]]] | [[x Hr] Hnb]]];
      rewrite Hr; run_steps.
    - split; [quiet_trace|]. left. exists body, page_text.
      split; [|reflexivity]. rewrite Htr. cbn [app]. page_read_last.
    - split; [quiet_trace|]. right. split; [now exists x|].
      intros H. not_benign H. }
  cbv zeta in Enter.
  rewrite run_try. run_steps.
  destruct (h (find_element d XPATH SeleniumAgentService.send_button_xpath) w)
    as [[send_button|x] w1]; run_steps.
  2:{ destruct (is_NoSuchElement x) eqn:N.
      - destruct (Enter w1) as [Hq [[body [page_text [Hend Hr]]] | [[x' Hr] Hnb]]].
        + split; [quiet_trace|]. left. exists body, page_text.
          split; [page_read_last | exact Hr].
        + split; [quiet_trace|]. right. split; [now exists x'|].
          intros H. not_benign H.
      - run_steps. split; [quiet_trace|]. right. split; [now exists x|].
        intros H. not_benign H. }
  destruct (h (click send_button) w1) as [[[]|x] w2]; run_steps.
  2:{ destruct (is_NoSuchElement x) eqn:N.
      - destruct (Enter w2) as [Hq [[body [page_text [Hend Hr]]] | [[x' Hr] Hnb]]].
        + split; [quiet_trace|]. left. exists body, page_text.
          split; [page_read_last | exact Hr].
        + split; [quiet_trace|]. right. split; [now exists x'|].
          intros H. not_benign H.
      - run_steps. split; [quiet_trace|]. right. split; [now exists x|].
        intros H. not_benign H. }
  destruct (h (sleep 3) w2) as [[] w3]. run_steps.
  destruct (read_page_cases w3) as [Hq [[body [page_text [Htr Hr]]] | [[x Hr] Hnb]]];
    rewrite Hr; run_steps.
  - split; [quiet_trace|]. left. exists body, page_text.
    split; [|reflexivity]. rewrite Htr. cbn [app]. page_read_last.
  - destruct (is_NoSuchElement x) eqn:N.
    + destruct (Enter (final (run h (SeleniumAgentService.read_page d) w3)))
        as [Hq' [[body [page_text [Hend Hr']]] | [[x' Hr'] Hnb']]].
      * split; [quiet_trace|]. left. exists body, page_text.
        split; [page_read_last | exact Hr'].
      * split; [quiet_trace|]. right. split; [now exists x'|].
        intros H. not_benign H.
    + run_steps. split; [quiet_trace|]. right. split; [now exists x|].
      intros H. not_benign H.
Qed.

(** One turn of the generic loop. *)
Lemma try_generic_selector_spec (message s : str) (w : W) :
  let o := run h (SeleniumAgentService.try_generic_selector d message s) w in
  reads_page_last d o /\ needs_a_field o /\ answers_when_nothing_fails o.
Proof.
  cbv zeta.
  unfold reads_page_last, needs_a_field, answers_when_nothing_fails.
  unfold SeleniumAgentService.try_generic_selector.
  rewrite run_try. run_steps.
  assert (Quiet : forall (tr : list event) (r : res (option str)),
             none_enabled tr ->
             (r = Ok None \/ (exists x, r = Raise x) /\ ~ only_lookups_miss tr) ->
             (forall r0, r = Ok (Some r0) ->
                exists body page_text,
                  ends_with [Ev (find_element d TAG_NAME (py "body")) (Ok body);
                             Ev (text body) (Ok page_text)] tr
                  /\ r0 = SeleniumAgentService.tail_of_page page_text)
             /\ (none_enabled tr -> r = Ok None \/ exists x, r = Raise x)
             /\ (only_lookups_miss tr ->
                 (none_enabled tr /\ r = Ok None) \/ exists r0, r = Ok (Some r0))).
  { intros tr r Hq [-> | [[x ->] Hnb]]; repeat split; try discriminate; auto.
    - intros _. right. now exists x.
    - intros H. contradiction. }
  assert (Failed : forall (tr : list event) (r : res (option str)),
             ~ only_lookups_miss tr ->
             (r = Ok None \/ exists x, r = Raise x) ->
             (forall r0, r = Ok (Some r0) ->
                exists body page_text,
                  ends_with [Ev (find_element d TAG_NAME (py "body")) (Ok body);
                             Ev (text body) (Ok page_text)] tr
                  /\ r0 = SeleniumAgentService.tail_of_page page_text)
             /\ (none_enabled tr -> r = Ok None \/ exists x, r = Raise x)
             /\ (only_lookups_miss tr ->
                 (none_enabled tr /\ r = Ok None) \/ exists r0, r = Ok (Some r0))).
  { intros tr r Hnb Hr; repeat split; auto.
    - intros r0 E. destruct Hr as [-> | [x ->]]; discriminate.
    - intros H. contradiction. }
  destruct (h (find_element d CSS_SELECTOR s) w) as [[text_area|x] w1];
    run_steps.
  2:{ destruct (is_NoSuchElement x) eqn:N; run_steps.
      - apply Quiet; [quiet_trace | now left].
      - apply Quiet; [quiet_trace|]. right. split; [now exists x|].
        intros H. not_benign H. }
  destruct (h (is_displayed text_area) w1) as [[[|]|x] w2]; run_steps.
  2:{ apply Quiet; [quiet_trace | now left]. }
  2:{ apply Failed; [intros H; not_benign H|].
      destruct (is_NoSuchElement x); run_steps; [now left | right; now exists x]. }
  destruct (h (is_enabled text_area) w2) as [[[|]|x] w3]; run_steps.
  2:{ apply Quiet; [quiet_trace | now left]. }
  2:{ apply Failed; [intros H; not_benign H|].
      destruct (is_NoSuchElement x); run_steps; [now left | right; now exists x]. }
  destruct (h (clear text_area) w3) as [[[]|x] w4]; run_steps.
  2:{ apply Failed; [intros H; not_benign H|].
      destruct (is_NoSuchElement x); run_steps; [now left | right; now exists x]. }
  destruct (h (send_keys text_area message) w4) as [[[]|x] w5]; run_steps.
  2:{ apply Failed; [intros H; not_benign H|].
      destruct (is_NoSuchElement x); run_steps; [now left | right; now exists x]. }
  destruct (submit_and_read_cases text_area w5)
    as [Hq [[body [page_text [Hend Hr]]] | [[x Hr] Hnb]]]; rewrite Hr; run_steps.
  - repeat split.
    + intros r0 E. injection E as <-. exists body, page_text.
      split; [page_read_last | reflexivity].
    + intros H. unfold none_enabled in H.
      inversion H as [|? ? _ H1]; subst. inversion H1 as [|? ? _ H2]; subst.
      inversion H2 as [|? ? Hen _]; subst. discriminate Hen.
    + intros _. right. eauto.
  - apply Failed; [intros H; not_benign H|].
    destruct (is_NoSuchElement x); run_steps; [now left | right; now exists x].
Qed.

(** The loop over the generic selectors. *)
Lemma generic_loop_spec (message : str) (candidates : list str) (w : W) :
  let o := run h (SeleniumAgentService.generic_loop d message candidates) w in
  reads_page_last d o /\ needs_a_field o /\ answers_when_nothing_fails o.
Proof.
  revert w. induction candidates as [|s rest IH]; intros w; cbv zeta.
  - unfold reads_page_last, needs_a_field, answers_when_nothing_fails.
    cbn [SeleniumAgentService.generic_loop]. run_steps.
    repeat split; try discriminate; auto. intros _. left. split; [constructor|reflexivity].
  - cbn [SeleniumAgentService.generic_loop]. rewrite run_bind. cbv zeta.
    destruct (try_generic_selector_spec message s w) as [T1 [T2 T3]].
    set (o1 := run h (SeleniumAgentService.try_generic_selector d message s) w) in *.
    unfold reads_page_last, needs_a_field, answers_when_nothing_fails in *.
    destruct (result o1) as [[r|]|x] eqn:E1; run_steps.
    + rewrite app_nil_r. repeat split.
      * intros r0 E. apply T1. exact E.
      * intros H. destruct (T2 H) as [?|[? ?]]; discriminate.
      * intros _. right. eauto.
    + destruct (IH (final o1)) as [L1 [L2 L3]].
      unfold reads_page_last, needs_a_field, answers_when_nothing_fails in *.
      repeat split.
      * intros r0 E. destruct (L1 r0 E) as [body [page_text [Hend Hr]]].
        exists body, page_text. split; [page_read_last | exact Hr].
      * intros H. unfold none_enabled in H. apply Forall_app in H.
        apply L2. apply H.
      * intros H. unfold only_lookups_miss in H. apply Forall_app in H.
        destruct H as [H1 H2].
        destruct (T3 H1) as [[Hq1 _] | [r0 Hr0]]; [|discriminate].
        destruct (L3 H2) as [[Hq2 Hr2] | Hsome]; [|now right].
        left. split; [|exact Hr2]. unfold none_enabled. apply Forall_app. now split.
    + repeat split; try discriminate.
      * intros _. right. eauto.
      * intros H. destruct (T3 H) as [[_ ?] | [? ?]]; discriminate.
Qed.

(** The whole generic interaction. *)
Lemma generic_interaction_spec (self : SeleniumAgentService.t)
    (agent_url message : str) (w : W) :
  SeleniumAgentService.driver_ self = Some d ->
  let o := run h (SeleniumAgentService.generic_steps self agent_url message) w in
  reads_page_last d o /\ needs_a_field o /\ answers_when_nothing_fails o.
Proof.
  intros Hd. cbv zeta.
  unfold SeleniumAgentService.generic_steps, SeleniumAgentService.the_driver.
  rewrite Hd. run_steps.
  unfold reads_page_last, needs_a_field, answers_when_nothing_fails.
  destruct (h (driver_get d agent_url) w) as [[[]|x] w1]; run_steps.
  2:{ repeat split; try discriminate.
      - intros _. right. eauto.
      - intros H. not_benign H. }
  destruct (h (sleep 5) w1) as [[] w2]. run_steps.
  destruct (generic_loop_spec message SeleniumAgentService.generic_text_selectors w2)
    as [L1 [L2 L3]].
  unfold reads_page_last, needs_a_field, answers_when_nothing_fails in *.
  repeat split.
  - intros r0 E. destruct (L1 r0 E) as [body [page_text [Hend Hr]]].
    exists body, page_text. split; [page_read_last | exact Hr].
  - intros H. unfold none_enabled in H.
    inversion H as [|? ? _ H1]; subst. inversion H1 as [|? ? _ H2]; subst.
    apply L2. exact H2.
  - intros H. unfold only_lookups_miss in H.
    inversion H as [|? ? _ H1]; subst. inversion H1 as [|? ? _ H2]; subst.
    destruct (L3 H2) as [[Hq Hr] | Hsome]; [|now right].
    left. split; [|exact Hr]. quiet_trace.
Qed.

End Generic.



Lemma run_handle_generic (W : Type) (h : env W) (self : SeleniumAgentService.t)
    (agent_url message : str) (w : W) :
  let steps := run h (SeleniumAgentService.generic_steps self agent_url message) w in
  let o := run h (SeleniumAgentService._handle_generic_interaction self
                    agent_url message) w in
  trace o = trace steps
  /\ final o = final steps
  /\ result o = match result steps with Ok response => response | Raise _ => None end.
Proof.
  cbv zeta. unfold SeleniumAgentService._handle_generic_interaction.
  rewrite run_pbind. cbv zeta.
  destruct (result (run h (SeleniumAgentService.generic_steps self agent_url message) w));
    cbn [run result final trace]; rewrite app_nil_r; auto.
Qed.



(* ===================================================================== *)
(** * The result objects of [SeleniumAgentService.get_agent_response] *)
(* ===================================================================== *)

Section SeleniumResults.

Variable W : Type.
Variable h : env W.

(** The strategy [get_agent_response] picks for a URL. *)
Lemma run_get_agent_response (self : SeleniumAgentService.t)
    (agent_url message : str) (agent_id : option str) (w : W) :
  run h (SeleniumAgentService.get_agent_response self agent_url message agent_id) w
  = let o0 := run h match SeleniumAgentService.driver_ self with
                    | None => SeleniumAgentService._setup_driver self
                    | Some _ => Ret (true, self)
                    end w in
    let self1 := snd (result o0) in
    if negb (fst (result o0))
    then Outcome (Ok SeleniumAgentService.driver_failure, self1) (final o0) (trace o0)
    else
      let agent_type := SeleniumAgentService._detect_agent_type agent_url in
      let o1 := run h (if str_eqb agent_type (py "chatgpt")
                       then SeleniumAgentService._handle_chatgpt_interaction
                              self1 agent_url message
                       else SeleniumAgentService._handle_generic_interaction
                              self1 agent_url message) (final o0) in
      match result o1 with
      | Some response_text =>
          if truthy response_text
          then Outcome
                 (Ok (SeleniumAgentService.success response_text agent_type
                        agent_id (fst (h time (final o1)))), self1)
                 (snd (h time (final o1)))
                 (trace o0 ++ trace o1 ++ [Ev time (fst (h time (final o1)))])
          else Outcome (Ok SeleniumAgentService.no_response, self1) (final o1)
                 (trace o0 ++ trace o1)
      | None =>
          Outcome (Ok SeleniumAgentService.no_response, self1) (final o1)
            (trace o0 ++ trace o1)
      end.
Proof.
  unfold SeleniumAgentService.get_agent_response, SeleniumAgentService.respond.
  rewrite !run_pbind. cbv zeta.
  set (o0 := run h match SeleniumAgentService.driver_ self with
                   | None => SeleniumAgentService._setup_driver self
                   | Some _ => Ret (true, self)
                   end w).
  destruct (result o0) as [configured self1]. cbn [fst snd].
  destruct configured; cbn [negb].
  2:{ cbn [run result final trace]. now rewrite !app_nil_r. }
  rewrite run_pbind. cbv zeta.
  set (o1 := run h _ (final o0)).
  destruct (result o1) as [response_text|].
  2:{ cbn [run result final trace]. now rewrite !app_nil_r. }
  destruct (truthy response_text).
  2:{ cbn [run result final trace]. now rewrite !app_nil_r. }
  cbn [run]. destruct (h time (final o1)) as [now w2].
  cbn [run result final trace fst snd]. now rewrite !app_nil_r.
Qed.

(** What the specialized strategy returns has more than ten characters. *)
Lemma chatgpt_response_long (self : SeleniumAgentService.t)
    (agent_url message : str) (w : W) (r : str) :
  result (run h (SeleniumAgentService._handle_chatgpt_interaction self
                   agent_url message) w) = Some r ->
  10 < length r.
Proof.
  unfold SeleniumAgentService._handle_chatgpt_interaction.
  rewrite run_pbind. cbv zeta.
  unfold SeleniumAgentService.chatgpt_steps, SeleniumAgentService.the_driver.
  destruct (SeleniumAgentService.driver_ self) as [d|]; run_steps;
    [|discriminate].
  destruct (h (driver_get d agent_url) w) as [[[]|x] w1]; run_steps;
    [|discriminate].
  set (o1 := run h (SeleniumAgentService.find_text_area d
                      SeleniumAgentService.text_selectors) w1).
  destruct (result o1) as [[text_area|]|x]; run_steps; try discriminate.
  destruct (h (clear text_area) (final o1)) as [[[]|x] w2]; run_steps;
    [|discriminate].
  destruct (h (send_keys text_area message) w2) as [[[]|x] w3]; run_steps;
    [|discriminate].
  set (o2 := run h (SeleniumAgentService.find_send_button d
                      SeleniumAgentService.send_selectors None) w3).
  destruct (result o2) as [[button|]|x]; run_steps; try discriminate.
  destruct (h (is_enabled button) (final o2)) as [[[|]|x] w4]; run_steps;
    try discriminate.
  destruct (h (click button) w4) as [[[]|x] w5]; run_steps; [|discriminate].
  destruct (h (sleep 3) w5) as [[] w6]. run_steps.
  destruct (read_response_long h d SeleniumAgentService.response_selectors w6)
    as [found [Hr Hlong]].
  rewrite Hr. run_steps. cbn [run result]. intros ->. now apply Hlong.
Qed.

(** What the generic strategy returns has at most 500 characters. *)
Lemma generic_response_bounded (self : SeleniumAgentService.t)
    (agent_url message : str) (w : W) (r : str) :
  result (run h (SeleniumAgentService._handle_generic_interaction self
                   agent_url message) w) = Some r ->
  length r <= 500.
Proof.
  destruct (run_handle_generic h self agent_url message w) as [_ [_ Hres]].
  cbv zeta in Hres. rewrite Hres. clear Hres.
  destruct (SeleniumAgentService.driver_ self) as [d|] eqn:Hd.
  - destruct (generic_interaction_spec h self agent_url message w Hd) as [S1 _].
    unfold reads_page_last in S1.
    destruct (result (run h (SeleniumAgentService.generic_steps self agent_url message) w))
      as [[r0|]|x]; try discriminate.
    intros E. injection E as ->.
    destruct (S1 r eq_refl) as [body [page_text [_ ->]]].
    apply tail_of_page_bounded.
  - unfold SeleniumAgentService.generic_steps, SeleniumAgentService.the_driver.
    rewrite Hd. run_steps. discriminate.
Qed.

(** The three result objects of the service. *)
Lemma selenium_response_cases (self : SeleniumAgentService.t)
    (agent_url message : str) (agent_id : option str) (w : W) :
  let o := run h (SeleniumAgentService.get_agent_response self agent_url
                    message agent_id) w in
  let agent_type := SeleniumAgentService._detect_agent_type agent_url in
  fst (result o) = Ok SeleniumAgentService.driver_failure
  \/ fst (result o) = Ok SeleniumAgentService.no_response
  \/ exists r now,
       fst (result o) = Ok (SeleniumAgentService.success r agent_type agent_id now)
       /\ r <> []
       /\ (agent_type = py "chatgpt" -> 10 < length r)
       /\ (agent_type <> py "chatgpt" -> length r <= 500).
Proof.
  cbv zeta. rewrite run_get_agent_response. cbv zeta.
  set (o0 := run h _ w).
  destruct (negb (fst (result o0))); [now left|].
  set (self1 := snd (result o0)).
  destruct (str_eqb (SeleniumAgentService._detect_agent_type agent_url) (py "chatgpt"))
    eqn:Ety.
  - pose proof (@chatgpt_response_long self1 agent_url message (final o0)) as Hlong.
    destruct (result (run h (SeleniumAgentService._handle_chatgpt_interaction
                               self1 agent_url message) (final o0)))
      as [r|]; [|right; now left].
    destruct (truthy r) eqn:Tr; [|right; now left].
    right. right. exists r, (fst (h time (final (run h
      (SeleniumAgentService._handle_chatgpt_interaction self1 agent_url message)
      (final o0))))).
    repeat split.
    + now apply truthy_nonempty.
    + intros _. now apply Hlong.
    + intros Hne. apply str_eqb_eq in Ety. contradiction.
  - pose proof (@generic_response_bounded self1 agent_url message (final o0)) as Hb.
    destruct (result (run h (SeleniumAgentService._handle_generic_interaction
                               self1 agent_url message) (final o0)))
      as [r|]; [|right; now left].
    destruct (truthy r) eqn:Tr; [|right; now left].
    right. right. exists r, (fst (h time (final (run h
      (SeleniumAgentService._handle_generic_interaction self1 agent_url message)
      (final o0))))).
    repeat split.
    + now apply truthy_nonempty.
    + intros E. apply str_eqb_eq in E. congruence.
    + intros _. now apply Hb.
Qed.

End SeleniumResults.

(** C1, as the code has it.  A result object of
    [SeleniumAgentService.get_agent_response] with [success = True] carries a
    response that is not empty.  On the specialized (ChatGPT) path the
    response has more than ten characters.  On the generic path it is the
    tail of the page text, of at most 500 characters, with no lower bound
    but being non-empty. *)
Theorem successful_response_is_not_empty :
  forall (W : Type) (h : env W) (self : SeleniumAgentService.t)
         (agent_url message : str) (agent_id : option str) (w : W) (d : dict),
    fst (result (run h (SeleniumAgentService.get_agent_response self agent_url
                          message agent_id) w)) = Ok d ->
    succeeded d ->
    exists r,
      lookup "response" d = Some (VStr r)
      /\ r <> []
      /\ (SeleniumAgentService._detect_agent_type agent_url = py "chatgpt" ->
          10 < length r)
      /\ (SeleniumAgentService._detect_agent_type agent_url <> py "chatgpt" ->
          length r <= 500).
Proof.
  intros W h self agent_url message agent_id w d Hd Hs.
  destruct (selenium_response_cases h self agent_url message agent_id w)
    as [E | [E | [r [now [E [Hne [Hlong Hb]]]]]]];
    rewrite E in Hd; injection Hd as <-.
  - discriminate Hs.
  - discriminate Hs.
  - exists r. repeat split; auto.
Qed.

(** A successful specialized interaction on the chat page: the newest reply,
    trimmed, of more than ten characters. *)
Lemma successful_response_on_chat_page :
  exists r,
    lookup "response"
      (SeleniumAgentService.success (py "The newest reply of the assistant.")
         (py "chatgpt") None 1700000000%float) = Some (VStr r)
    /\ r <> []
    /\ (SeleniumAgentService._detect_agent_type (py "https://chatgpt.com/g/g-1-demo")
        = py "chatgpt" -> 10 < length r)
    /\ (SeleniumAgentService._detect_agent_type (py "https://chatgpt.com/g/g-1-demo")
        <> py "chatgpt" -> length r <= 500).
Proof.
  apply (@successful_response_is_not_empty _ Synthetic.answer
           (SeleniumAgentService.__init__ true)
           (py "https://chatgpt.com/g/g-1-demo") (py "hola") None
           (Synthetic.browser_with true Synthetic.chat_page [])).
  - vm_compute. reflexivity.
  - vm_compute. reflexivity.
Defined.

(** C1, as the specification states it, fails on the generic path: the page
    of an unknown agent whose body reads [ok] gives [success = True] with a
    response of two characters. *)
Lemma short_generic_response_succeeds :
  let w := Synthetic.browser_with true Synthetic.terse_page [] in
  let o := run Synthetic.answer
             (SeleniumAgentService.get_agent_response
                (SeleniumAgentService.__init__ true)
                (py "https://example.com") (py "hola") None) w in
  exists d,
    fst (result o) = Ok d
    /\ succeeded d
    /\ lookup "response" d = Some (VStr (py "ok"))
    /\ lookup "agent_type" d = Some (VStr (py "unknown"))
    /\ length (py "ok") = 2
    /\ ~ 10 < length (py "ok").
Proof.
  cbv zeta. eexists. split; [vm_compute; reflexivity|].
  repeat split. vm_compute. lia.
Qed.

(* ===================================================================== *)
(** * The result objects of [SimpleWebScrapingService.get_agent_response] *)
(* ===================================================================== *)

Section SimpleResults.

Variable L : library.
Variable W : Type.
Variable h : env W.

(** Working out the name of the agent calls nothing. *)
Lemma domain_name_returns (agent_url : str) :
  exists r, SimpleWebScrapingService.domain_name L agent_url = Ret r.
Proof.
  unfold SimpleWebScrapingService.domain_name, bind. cbn [pbind].
  destruct (urlparse_netloc L agent_url) as [netloc|e]; [|eexists; reflexivity].
  destruct (nth_error _ 0); eexists; reflexivity.
Qed.

Lemma extract_agent_name_returns (agent_url : str) :
  exists name, SimpleWebScrapingService._extract_agent_name L agent_url = Ret name.
Proof.
  assert (H : exists r, SimpleWebScrapingService.extract_steps L agent_url = Ret r).
  { unfold SimpleWebScrapingService.extract_steps.
    destruct (contains _ agent_url); [|apply domain_name_returns].
    destruct (nth_error _ 1); [|eexists; reflexivity].
    destruct (1 <? _); [|apply domain_name_returns].
    destruct (SimpleWebScrapingService.name_parts_of _ _);
      [apply domain_name_returns | eexists; reflexivity]. }
  destruct H as [r Hr]. unfold SimpleWebScrapingService._extract_agent_name.
  rewrite Hr. cbn [pbind]. destruct r; eexists; reflexivity.
Qed.

Lemma run_extract_agent_name (agent_url : str) (w : W) :
  run h (SimpleWebScrapingService._extract_agent_name L agent_url) w
  = Outcome
      (result (run h (SimpleWebScrapingService._extract_agent_name L agent_url) w))
      w [].
Proof.
  destruct (extract_agent_name_returns agent_url) as [name ->]. reflexivity.
Qed.

Lemma run_simple_get_agent_response (agent_url message : str)
    (agent_id : option str) (w : W) :
  run h (SimpleWebScrapingService.get_agent_response L agent_url message agent_id) w
  = let start_time := fst (h time w) in
    let w1 := snd (h time w) in
    let agent_type := SimpleWebScrapingService._detect_agent_type agent_url in
    let agent_name :=
      result (run h (SimpleWebScrapingService._extract_agent_name L agent_url) w1) in
    let o := run h (SimpleWebScrapingService._generate_simulated_response L
                      message agent_type agent_name) w1 in
    match result o with
    | Ok response =>
        let finished := fst (h time (final o)) in
        let w2 := snd (h time (final o)) in
        let timestamp := fst (h time w2) in
        Outcome
          (Ok (SimpleWebScrapingService.success response agent_type agent_id
                 agent_name timestamp (PrimFloat.sub finished start_time)))
          (snd (h time w2))
          (Ev time start_time :: trace o
           ++ [Ev time finished; Ev time timestamp])
    | Raise e =>
        Outcome (Ok (SimpleWebScrapingService.failure e)) (final o)
          (Ev time start_time :: trace o)
    end.
Proof.
  unfold SimpleWebScrapingService.get_agent_response,
    SimpleWebScrapingService.respond.
  rewrite run_try, run_bind, run_perform'. cbv zeta. cbn [result final trace].
  rewrite run_bind, run_pbind. cbv zeta.
  rewrite run_extract_agent_name. cbn [result final trace run ret app].
  rewrite run_bind. cbv zeta.
  destruct (result (run h (SimpleWebScrapingService._generate_simulated_response L
                             message _ _) _)) as [response|e].
  - rewrite run_bind, run_perform'. cbv zeta. cbn [result final trace].
    rewrite run_bind, run_perform'. cbv zeta. cbn [result final trace].
    rewrite run_ret. cbn [result final trace app].
    rewrite ?app_nil_r. reflexivity.
  - cbn [result final trace run ret app]. rewrite ?app_nil_r. reflexivity.
Qed.

End SimpleResults.

(* ===================================================================== *)
(** * Failures become result objects *)
(* ===================================================================== *)

Section Failures.

Variable W : Type.
Variable h : env W.

Lemma start_chrome_fails (options : Options) (w : W) :
  (forall service options' w',
      exists x, fst (h (webdriver_Chrome service options') w') = Raise x) ->
  exists x, result (run h (SeleniumAgentService.start_chrome options) w) = Raise x.
Proof.
  intros Hno.
  assert (Hc : forall service w',
             exists x w'', h (webdriver_Chrome service options) w' = (Raise x, w'')).
  { intros service w'. destruct (Hno service options w') as [x Hx].
    destruct (h (webdriver_Chrome service options) w') as [r w''].
    cbn in Hx. subst r. now exists x, w''. }
  unfold SeleniumAgentService.start_chrome.
  destruct (Hc (Some (py "/nix/store/*/bin/chromedriver")) w) as [x1 [w1 E1]].
  rewrite run_try, run_perform, E1. cbv zeta. cbn [result final trace fst snd].
  rewrite run_try, run_bind, run_perform. cbv zeta. cbn [result final trace].
  destruct (h ChromeDriverManager_install w1) as [[path|x2] w2];
    cbn [result final trace fst snd].
  - destruct (Hc (Some path) w2) as [x3 [w3 E3]].
    rewrite run_perform, E3. cbn [result final trace fst snd].
    destruct (Hc None w3) as [x4 [w4 E4]].
    rewrite run_perform, E4. cbn [result final trace fst snd]. now exists x4.
  - destruct (Hc None w2) as [x4 [w4 E4]].
    rewrite run_perform, E4. cbn [result final trace fst snd]. now exists x4.
Qed.

Lemma setup_fails_without_chrome (self : SeleniumAgentService.t) (w : W) :
  (forall service options w',
      exists x, fst (h (webdriver_Chrome service options) w') = Raise x) ->
  fst (result (run h (SeleniumAgentService._setup_driver self) w)) = false.
Proof.
  intros Hno. unfold SeleniumAgentService._setup_driver.
  rewrite run_pbind. cbv zeta.
  destruct (start_chrome_fails (SeleniumAgentService.chrome_options self) w Hno)
    as [x ->].
  reflexivity.
Qed.

Lemma strategies_fail_offline (self : SeleniumAgentService.t)
    (agent_url message : str) (w : W) :
  (forall dr url w', exists x, fst (h (driver_get dr url) w') = Raise x) ->
  result (run h (SeleniumAgentService._handle_chatgpt_interaction self
                   agent_url message) w) = None
  /\ result (run h (SeleniumAgentService._handle_generic_interaction self
                      agent_url message) w) = None.
Proof.
  intros Hoff.
  unfold SeleniumAgentService._handle_chatgpt_interaction,
    SeleniumAgentService._handle_generic_interaction,
    SeleniumAgentService.chatgpt_steps, SeleniumAgentService.generic_steps,
    SeleniumAgentService.the_driver.
  rewrite !run_pbind. cbv zeta.
  destruct (SeleniumAgentService.driver_ self) as [d|]; run_steps.
  2:{ split; reflexivity. }
  destruct (Hoff d agent_url w) as [x Hx].
  destruct (h (driver_get d agent_url) w) as [r w1]. cbn in Hx. subst r.
  run_steps. split; reflexivity.
Qed.

Lemma aborted_strategy_gives_none (self : SeleniumAgentService.t)
    (agent_url message : str) (w : W) (x : exn) :
  (result (run h (SeleniumAgentService.chatgpt_steps self agent_url message) w)
   = Raise x ->
   result (run h (SeleniumAgentService._handle_chatgpt_interaction self
                    agent_url message) w) = None)
  /\ (result (run h (SeleniumAgentService.generic_steps self agent_url message) w)
      = Raise x ->
      result (run h (SeleniumAgentService._handle_generic_interaction self
                       agent_url message) w) = None).
Proof.
  unfold SeleniumAgentService._handle_chatgpt_interaction,
    SeleniumAgentService._handle_generic_interaction.
  rewrite !run_pbind. cbv zeta. split; intros ->; reflexivity.
Qed.

End Failures.

Lemma result_objects_shapes :
  failed_with_error SeleniumAgentService.driver_failure
  /\ failed_with_error SeleniumAgentService.no_response
  /\ (forall e, failed_with_error (SeleniumAgentService.failure e))
  /\ (forall e, failed_with_error (SimpleWebScrapingService.failure e))
  /\ (forall r ty id now, succeeded (SeleniumAgentService.success r ty id now))
  /\ (forall r ty id name now spent,
         succeeded (SimpleWebScrapingService.success r ty id name now spent)).
Proof.
  unfold failed_with_error, succeeded.
  repeat split; try (eexists; reflexivity); reflexivity.
Qed.

(** C8.  [get_agent_response] never raises, in either service: against any
    browser, clock and generator it returns a result object, and that object
    either says [success = True] or says [success = False] with an error
    description and no response.  For the Selenium service the object is a
    failure when no Chrome can be started for an instance without a driver,
    when every navigation fails, and when the steps of the strategy chosen
    for the URL end in an exception. *)
Theorem get_agent_response_never_raises :
  forall (W : Type) (h : env W) (agent_url message : str)
         (agent_id : option str) (w : W),
    (forall self : SeleniumAgentService.t,
        let o := run h (SeleniumAgentService.get_agent_response self agent_url
                          message agent_id) w in
        exists d,
          fst (result o) = Ok d
          /\ (succeeded d \/ failed_with_error d)
          /\ (SeleniumAgentService.driver_ self = None ->
              (forall service options w',
                  exists x, fst (h _ (webdriver_Chrome service options) w') = Raise x) ->
              failed_with_error d)
          /\ ((forall dr url w',
                  exists x, fst (h _ (driver_get dr url) w') = Raise x) ->
              failed_with_error d)
          /\ (SeleniumAgentService.driver_ self <> None ->
              (exists x,
                  result (run h
                    (if str_eqb (SeleniumAgentService._detect_agent_type agent_url)
                          (py "chatgpt")
                     then SeleniumAgentService.chatgpt_steps self agent_url message
                     else SeleniumAgentService.generic_steps self agent_url message)
                    w) = Raise x) ->
              failed_with_error d))
    /\ (forall L : library,
           let o := run h (SimpleWebScrapingService.get_agent_response L agent_url
                             message agent_id) w in
           exists d, result o = Ok d /\ (succeeded d \/ failed_with_error d)).
Proof.
  intros W h agent_url message agent_id w.
  destruct result_objects_shapes as [F1 [F2 [F3 [F4 [S1 S2]]]]].
  split.
  - intros self o.
    assert (Hd : exists d, fst (result o) = Ok d
                           /\ (succeeded d \/ failed_with_error d)).
    { destruct (selenium_response_cases h self agent_url message agent_id w)
        as [E | [E | [r [now [E _]]]]]; fold o in E; rewrite E.
      - exists SeleniumAgentService.driver_failure.
        split; [reflexivity | right; exact F1].
      - exists SeleniumAgentService.no_response.
        split; [reflexivity | right; exact F2].
      - eexists. split; [reflexivity | left; apply S1]. }
    destruct Hd as [d [Hd Hshape]]. exists d. split; [exact Hd|].
    split; [exact Hshape|].
    subst o. rewrite run_get_agent_response in Hd. cbv zeta in Hd.
    split; [|split].
    + intros Hnone Hno. rewrite Hnone in Hd.
      rewrite (setup_fails_without_chrome h self w Hno) in Hd.
      cbn [negb result fst] in Hd. injection Hd as <-. exact F1.
    + intros Hoff.
      destruct (negb (fst (result (run h _ w)))).
      { cbn [result fst] in Hd. injection Hd as <-. exact F1. }
      set (self1 := snd (result (run h _ w))) in Hd.
      set (w1 := final (run h _ w)) in Hd.
      destruct (strategies_fail_offline h self1 agent_url message w1 Hoff)
        as [Hc Hg].
      destruct (str_eqb _ _); [rewrite Hc in Hd | rewrite Hg in Hd];
        cbn [result fst] in Hd; injection Hd as <-; exact F2.
    + intros Hsome [x Hx].
      destruct (SeleniumAgentService.driver_ self) as [dr|]; [|contradiction].
      cbn [run result final trace fst snd negb] in Hd.
      destruct (aborted_strategy_gives_none h self agent_url message w x)
        as [Hc Hg].
      destruct (str_eqb _ _); [rewrite (Hc Hx) in Hd | rewrite (Hg Hx) in Hd];
        cbn [result fst] in Hd; injection Hd as <-; exact F2.
  - intros L o. subst o. rewrite run_simple_get_agent_response. cbv zeta.
    destruct (result (run h (SimpleWebScrapingService._generate_simulated_response
                               L message _ _) _)) as [response|e];
      cbn [result]; eexists; (split; [reflexivity|]);
      [left; apply S2 | right; apply F4].
Qed.

(** Chrome cannot be started: the object says so. *)
Lemma failure_object_without_chrome :
  failed_with_error SeleniumAgentService.driver_failure
  /\ fst (result (run Synthetic.answer_without_chrome
                    (SeleniumAgentService.get_agent_response
                       (SeleniumAgentService.__init__ true)
                       (py "https://chatgpt.com/") (py "hola") None)
                    (Synthetic.browser_with true Synthetic.chat_page [])))
     = Ok SeleniumAgentService.driver_failure.
Proof.
  destruct (@get_agent_response_never_raises _ Synthetic.answer_without_chrome
              (py "https://chatgpt.com/") (py "hola") None
              (Synthetic.browser_with true Synthetic.chat_page []))
    as [H _].
  destruct (H (SeleniumAgentService.__init__ true)) as [d [Hd [_ [Hsetup _]]]].
  assert (E : Ok d = Ok SeleniumAgentService.driver_failure).
  { rewrite <- Hd. vm_compute. reflexivity. }
  injection E as ->. split; [|exact Hd].
  apply Hsetup; [reflexivity|].
  intros service options w'. eexists. reflexivity.
Defined.

(** Every navigation fails: the object is a failure too. *)
Lemma failure_object_offline :
  fst (result (run Synthetic.answer_offline
                 (SeleniumAgentService.get_agent_response
                    (SeleniumAgentService.__init__ true)
                    (py "https://example.com") (py "hola") None)
                 (Synthetic.browser_with true Synthetic.terse_page [])))
  = Ok SeleniumAgentService.no_response.
Proof. vm_compute. reflexivity. Qed.

(* ===================================================================== *)
(** * The fields of the result objects *)
(* ===================================================================== *)

(** C9, as the code has it.  A result object has one of three lists of
    fields.  A success of the Selenium service has [success], [response],
    [agent_type], [agent_id] and [timestamp]; a success of the simulated
    service has those and [agent_name], [processing_time] and [method]; a
    failure of either service has [success], [error] and [response] only. *)
Theorem result_object_fields :
  forall (W : Type) (h : env W) (agent_url message : str)
         (agent_id : option str) (w : W),
    (forall self : SeleniumAgentService.t,
        exists d,
          fst (result (run h (SeleniumAgentService.get_agent_response self
                                agent_url message agent_id) w)) = Ok d
          /\ ((succeeded d
               /\ keys d = ["success"; "response"; "agent_type"; "agent_id";
                            "timestamp"]%string)
              \/ (failed_with_error d
                  /\ keys d = ["success"; "error"; "response"]%string)))
    /\ (forall L : library,
           exists d,
             result (run h (SimpleWebScrapingService.get_agent_response L
                              agent_url message agent_id) w) = Ok d
             /\ ((succeeded d
                  /\ keys d = ["success"; "response"; "agent_type"; "agent_id";
                               "agent_name"; "timestamp"; "processing_time";
                               "method"]%string)
                 \/ (failed_with_error d
                     /\ keys d = ["success"; "error"; "response"]%string))).
Proof.
  intros W h agent_url message agent_id w.
  destruct result_objects_shapes as [F1 [F2 [F3 [F4 [S1 S2]]]]].
  split.
  - intros self.
    destruct (selenium_response_cases h self agent_url message agent_id w)
      as [E | [E | [r [now [E _]]]]]; rewrite E.
    + exists SeleniumAgentService.driver_failure.
      split; [reflexivity | right; split; [exact F1 | reflexivity]].
    + exists SeleniumAgentService.no_response.
      split; [reflexivity | right; split; [exact F2 | reflexivity]].
    + eexists. split; [reflexivity | left; split; [apply S1 | reflexivity]].
  - intros L. rewrite run_simple_get_agent_response. cbv zeta.
    destruct (result (run h (SimpleWebScrapingService._generate_simulated_response
                               L message _ _) _)) as [response|e];
      cbn [result]; eexists; (split; [reflexivity|]).
    + left. split; [apply S2 | reflexivity].
    + right. split; [apply F4 | reflexivity].
Qed.

(** C9, as the specification states it, fails: the failure object has no
    [agent_type], [agent_id] or [timestamp], and the success object has no
    [error]. *)
Lemma result_objects_miss_fields :
  let failed :=
    run Synthetic.answer
      (SeleniumAgentService.get_agent_response (SeleniumAgentService.__init__ true)
         (py "https://chatgpt.com/") (py "hola") (Some (py "a1")))
      (Synthetic.browser_with false Synthetic.chat_page []) in
  let worked :=
    run Synthetic.answer
      (SeleniumAgentService.get_agent_response (SeleniumAgentService.__init__ true)
         (py "https://chatgpt.com/") (py "hola") (Some (py "a1")))
      (Synthetic.browser_with true Synthetic.chat_page []) in
  (exists d, fst (result failed) = Ok d
             /\ keys d = ["success"; "error"; "response"]%string
             /\ lookup "agent_type" d = None
             /\ lookup "agent_id" d = None
             /\ lookup "timestamp" d = None)
  /\ (exists d, fst (result worked) = Ok d
                /\ keys d = ["success"; "response"; "agent_type"; "agent_id";
                             "timestamp"]%string
                /\ lookup "error" d = None).
Proof.
  cbv zeta. split; eexists; (split; [vm_compute; reflexivity|]); repeat split.
Qed.

(* ===================================================================== *)
(** * The simulated service does not reach the page *)
(* ===================================================================== *)

(** C10.  Whenever the simulated responder returns a reply for the message
    and the name worked out of the URL, [get_agent_response] returns
    [success = True] with that reply, the category of the URL (also when it
    is [unknown]) and [method = "simulated_contextual"]; and the run talks
    to the clock and the random generator only, never to a browser. *)
Theorem simulated_response_without_live_interaction :
  forall (L : library) (W : Type) (h : env W) (agent_url message : str)
         (agent_id : option str) (w : W) (reply : str),
    let w1 := snd (h _ time w) in
    let agent_name :=
      result (run h (SimpleWebScrapingService._extract_agent_name L agent_url) w1) in
    result (run h (SimpleWebScrapingService._generate_simulated_response L message
                     (SimpleWebScrapingService._detect_agent_type agent_url)
                     agent_name) w1) = Ok reply ->
    let o := run h (SimpleWebScrapingService.get_agent_response L agent_url
                      message agent_id) w in
    exists d,
      result o = Ok d
      /\ succeeded d
      /\ lookup "response" d = Some (VStr reply)
      /\ lookup "agent_type" d
         = Some (VStr (SimpleWebScrapingService._detect_agent_type agent_url))
      /\ lookup "agent_name" d = Some (VStr agent_name)
      /\ lookup "method" d = Some (VStr (py "simulated_contextual"))
      /\ Forall (fun ev => is_live ev = false) (trace o).
Proof.
  intros L W h agent_url message agent_id w reply w1 agent_name Hreply o.
  subst o. rewrite run_simple_get_agent_response. cbv zeta.
  fold w1. fold agent_name.
  pose proof (run_generate L h w1 message
                (SimpleWebScrapingService._detect_agent_type agent_url) agent_name)
    as Hgen.
  cbv zeta in Hgen.
  assert (Htrace : Forall (fun ev => is_live ev = false)
            (trace (run h (SimpleWebScrapingService._generate_simulated_response
                             L message
                             (SimpleWebScrapingService._detect_agent_type agent_url)
                             agent_name) w1))).
  { rewrite Hgen. repeat constructor. }
  rewrite Hreply. cbn [result trace]. eexists. split; [reflexivity|].
  repeat split.
  constructor; [reflexivity|]. apply Forall_app. split; [exact Htrace|].
  repeat constructor.
Qed.

(** The simulated service on the URL of an unknown agent that no browser
    could reach: a success, without a browser. *)
Lemma simulated_response_for_unknown_agent :
  let o := run Synthetic.answer_offline
             (SimpleWebScrapingService.get_agent_response Synthetic.ascii_library
                (py "https://www.unreachable.example/chat") (py "hola") None)
             (Synthetic.browser_with false [] [2]) in
  exists d,
    result o = Ok d
    /\ succeeded d
    /\ lookup "response" d
       = Some (VStr (py "Como Unreachable, entiendo que necesitas ayuda con 'hola'. Puedo proporcionarte información detallada y recomendaciones personalizadas. ¿Hay algún contexto adicional que debería considerar para darte la mejor respuesta?"))
    /\ lookup "agent_type" d = Some (VStr (py "unknown"))
    /\ lookup "agent_name" d = Some (VStr (py "Unreachable"))
    /\ lookup "method" d = Some (VStr (py "simulated_contextual"))
    /\ Forall (fun ev => is_live ev = false) (trace o).
Proof.
  apply (@simulated_response_without_live_interaction Synthetic.ascii_library _
           Synthetic.answer_offline
           (py "https://www.unreachable.example/chat") (py "hola") None
           (Synthetic.browser_with false [] [2])).
  vm_compute. reflexivity.
Defined.

(* ===================================================================== *)
(** * Which calls a program makes *)
(* ===================================================================== *)

Section CallsOnly.

Variable P : forall R : Type, call R -> bool.

Lemma calls_only_pbind {A B : Type} (p : prog A) (f : A -> prog B) :
  calls_only P p -> (forall a, calls_only P (f a)) ->
  calls_only P (pbind p f).
Proof.
  intros Hp Hf. induction p as [a | R c k IH]; cbn in *.
  - apply Hf.
  - destruct Hp as [Hc Hk]. split; [exact Hc|]. intros r. apply IH. apply Hk.
Qed.

Lemma calls_only_bind {A B : Type} (m : M A) (f : A -> M B) :
  calls_only P m -> (forall a, calls_only P (f a)) ->
  calls_only P (bind m f).
Proof.
  intros Hm Hf. unfold bind. apply calls_only_pbind; [exact Hm|].
  intros [a|e]; [apply Hf | exact I].
Qed.

Lemma calls_only_bind_ret {A B : Type} (a : A) (f : A -> M B) :
  calls_only P (f a) -> calls_only P (bind (ret a) f).
Proof. intros H. exact H. Qed.

Lemma calls_only_try {A : Type} (m : M A) (handler : exn -> M A) :
  calls_only P m -> (forall e, calls_only P (handler e)) ->
  calls_only P (try_ m handler).
Proof.
  intros Hm Hh. unfold try_. apply calls_only_pbind; [exact Hm|].
  intros [a|e]; [exact I | apply Hh].
Qed.

Lemma calls_only_perform {R : Type} (c : call (res R)) :
  P c = true -> calls_only P (perform c).
Proof. intros H. split; [exact H | intros r; exact I]. Qed.

Lemma calls_only_perform' {R : Type} (c : call R) :
  P c = true -> calls_only P (perform' c).
Proof. intros H. split; [exact H | intros r; exact I]. Qed.

Lemma calls_only_trace {W A : Type} (h : env W) (p : prog A) (w : W) :
  calls_only P p -> made_of P (trace (run h p w)).
Proof.
  revert w. induction p as [a | R c k IH]; intros w Hp; cbn in *.
  - constructor.
  - destruct Hp as [Hc Hk]. destruct (h R c w) as [r w1]. cbn.
    constructor; [exact Hc | apply IH, Hk].
Qed.

End CallsOnly.

Lemma made_of_weaken (P Q : forall R : Type, call R -> bool) (tr : list event) :
  (forall R (c : call R), P R c = true -> Q R c = true) ->
  made_of P tr -> made_of Q tr.
Proof.
  intros HPQ H. unfold made_of in *. eapply Forall_impl; [|exact H].
  intros [R c r]. apply HPQ.
Qed.

(** Goes through the steps of a program, one call at a time. *)
Ltac walk_calls :=
  repeat first
    [ exact I
    | apply calls_only_bind
    | apply calls_only_try
    | apply calls_only_pbind
    | apply calls_only_perform; cbn; try apply Nat.eqb_refl; reflexivity
    | apply calls_only_perform'; cbn; try apply Nat.eqb_refl; reflexivity
    | intro
    | match goal with
      | |- calls_only _ (if ?b then _ else _) => destruct b
      | |- calls_only _ (match ?x with _ => _ end) => destruct x
      end ].

Section InteractionCalls.

Variable d : driver.

Lemma find_text_area_calls (candidates : list str) :
  calls_only (interaction d) (SeleniumAgentService.find_text_area d candidates).
Proof.
  induction candidates as [|s rest IH];
    cbn [SeleniumAgentService.find_text_area]; walk_calls; exact IH.
Qed.

Lemma find_send_button_calls (candidates : list str)
    (send_button : option element) :
  calls_only (interaction d)
    (SeleniumAgentService.find_send_button d candidates send_button).
Proof.
  revert send_button. induction candidates as [|s rest IH]; intros send_button;
    cbn [SeleniumAgentService.find_send_button]; walk_calls; apply IH.
Qed.

Lemma read_response_calls (candidates : list str) :
  calls_only (interaction d) (SeleniumAgentService.read_response d candidates).
Proof.
  induction candidates as [|s rest IH];
    cbn [SeleniumAgentService.read_response];
    unfold SeleniumAgentService.try_response_selector; walk_calls; exact IH.
Qed.

Lemma generic_loop_calls (message : str) (candidates : list str) :
  calls_only (interaction d)
    (SeleniumAgentService.generic_loop d message candidates).
Proof.
  induction candidates as [|s rest IH];
    cbn [SeleniumAgentService.generic_loop];
    unfold SeleniumAgentService.try_generic_selector,
      SeleniumAgentService.submit_and_read, SeleniumAgentService.read_page;
    walk_calls; exact IH.
Qed.

Lemma handlers_calls (self : SeleniumAgentService.t) (agent_url message : str) :
  SeleniumAgentService.driver_ self = Some d ->
  calls_only (interaction d)
    (SeleniumAgentService._handle_chatgpt_interaction self agent_url message)
  /\ calls_only (interaction d)
       (SeleniumAgentService._handle_generic_interaction self agent_url message).
Proof.
  intros Hd.
  unfold SeleniumAgentService._handle_chatgpt_interaction,
    SeleniumAgentService._handle_generic_interaction,
    SeleniumAgentService.chatgpt_steps, SeleniumAgentService.generic_steps,
    SeleniumAgentService.the_driver.
  rewrite Hd. split.
  - apply calls_only_pbind; [|intros [r|e]; exact I].
    apply calls_only_bind_ret.
    apply calls_only_bind; [walk_calls|]. intros _.
    apply calls_only_bind; [apply find_text_area_calls|]. intros [text_area|];
      [|exact I].
    apply calls_only_bind; [walk_calls|]. intros _.
    apply calls_only_bind; [walk_calls|]. intros _.
    apply calls_only_bind; [apply find_send_button_calls|]. intros [button|];
      [|exact I].
    apply calls_only_bind; [walk_calls|]. intros enabled.
    destruct (negb enabled); [exact I|].
    apply calls_only_bind; [walk_calls|]. intros _.
    apply calls_only_bind; [walk_calls|]. intros _.
    apply read_response_calls.
  - apply calls_only_pbind; [|intros [r|e]; exact I].
    apply calls_only_bind_ret.
    apply calls_only_bind; [walk_calls|]. intros _.
    apply calls_only_bind; [walk_calls|]. intros _.
    apply generic_loop_calls.
Qed.

End InteractionCalls.

(** X1.  Both interaction strategies talk to the page of the service's own
    session and to nothing else: every call of a run is a navigation or a
    lookup in that session, an action on an element or a pause; no browser
    is started or quit, no other session is addressed, and neither the clock
    nor the random generator is read.  Without a driver they make no call
    at all and return [None]. *)
Theorem interactions_stay_in_the_session :
  forall (W : Type) (h : env W) (self : SeleniumAgentService.t)
         (agent_url message : str) (w : W),
    let specialized :=
      run h (SeleniumAgentService._handle_chatgpt_interaction self agent_url
               message) w in
    let generic :=
      run h (SeleniumAgentService._handle_generic_interaction self agent_url
               message) w in
    match SeleniumAgentService.driver_ self with
    | Some d =>
        made_of (interaction d) (trace specialized)
        /\ made_of (interaction d) (trace generic)
    | None =>
        trace specialized = [] /\ result specialized = None
        /\ trace generic = [] /\ result generic = None
    end.
Proof.
  intros W h self agent_url message w specialized generic.
  destruct (SeleniumAgentService.driver_ self) as [d|] eqn:Hd.
  - destruct (handlers_calls self agent_url message Hd) as [Hc Hg].
    split; apply calls_only_trace; assumption.
  - subst specialized generic.
    unfold SeleniumAgentService._handle_chatgpt_interaction,
      SeleniumAgentService._handle_generic_interaction,
      SeleniumAgentService.chatgpt_steps, SeleniumAgentService.generic_steps,
      SeleniumAgentService.the_driver.
    rewrite Hd. repeat split.
Qed.

(* ===================================================================== *)
(** * Bringing the browser up *)
(* ===================================================================== *)

Lemma collect_app {A : Type} (reading : event -> option A) (tr1 tr2 : list event) :
  collect reading (tr1 ++ tr2) = collect reading tr1 ++ collect reading tr2.
Proof.
  induction tr1 as [|ev tr1 IH]; [reflexivity|]. cbn.
  destruct (reading ev); cbn; now rewrite IH.
Qed.

Lemma made_of_app (P : forall R : Type, call R -> bool) (tr1 tr2 : list event) :
  made_of P tr1 -> made_of P tr2 -> made_of P (tr1 ++ tr2).
Proof. intros H1 H2. apply Forall_app. now split. Qed.

Section Provisioning.

Variable W : Type.
Variable h : env W.

Lemma start_chrome_calls (options : Options) :
  calls_only provisioning (SeleniumAgentService.start_chrome options).
Proof. unfold SeleniumAgentService.start_chrome. walk_calls. Qed.

(** The three attempts, in order: at most one of them starts a browser, and
    it is the last one made. *)
Lemma start_chrome_cases (options : Options) (w : W) :
  let o := run h (SeleniumAgentService.start_chrome options) w in
  ((exists d, result o = Ok d /\ collect starts (trace o) = [d])
   \/ (exists x, result o = Raise x /\ collect starts (trace o) = []))
  /\ exists r rest,
       trace o = Ev (webdriver_Chrome (Some (py "/nix/store/*/bin/chromedriver"))
                       options) r :: rest.
Proof.
  cbv zeta. unfold SeleniumAgentService.start_chrome.
  rewrite run_try, run_perform. cbv zeta. cbn [result final trace].
  destruct (h (webdriver_Chrome (Some (py "/nix/store/*/bin/chromedriver")) options) w)
    as [[d|x1] w1]; cbn [result final trace fst snd].
  { split; [left; exists d; split; reflexivity | eauto]. }
  split; [|cbn [app]; eauto].
  rewrite run_try, run_bind, run_perform. cbv zeta. cbn [result final trace].
  destruct (h ChromeDriverManager_install w1) as [[path|x2] w2];
    cbn [result final trace fst snd].
  - rewrite run_perform.
    destruct (h (webdriver_Chrome (Some path) options) w2) as [[d|x3] w3];
      cbn [result final trace fst snd app].
    + left. exists d. split; reflexivity.
    + rewrite run_perform.
      destruct (h (webdriver_Chrome None options) w3) as [[d|x4] w4];
        cbn [result final trace fst snd app].
      * left. exists d. split; reflexivity.
      * right. exists x4. split; reflexivity.
  - rewrite run_perform.
    destruct (h (webdriver_Chrome None options) w2) as [[d|x4] w4];
      cbn [result final trace fst snd app].
    + left. exists d. split; reflexivity.
    + right. exists x4. split; reflexivity.
Qed.

Lemma setup_driver_calls (self : SeleniumAgentService.t) :
  calls_only provisioning (SeleniumAgentService._setup_driver self).
Proof.
  unfold SeleniumAgentService._setup_driver.
  apply calls_only_pbind; [apply start_chrome_calls|].
  intros [d|x]; [|exact I]. walk_calls.
Qed.

(** The steps of [_setup_driver] for any window size. *)
Lemma sized_setup_cases (self : SeleniumAgentService.t) (width height : nat)
    (w : W) :
  let o :=
    run h
      (pbind (SeleniumAgentService.start_chrome
                (SeleniumAgentService.chrome_options self))
         (fun started =>
            match started with
            | Raise _ => Ret (false, self)
            | Ok d =>
                let self' := SeleniumAgentService.set_driver self d in
                pbind (perform (set_window_size d width height) ;;
                       perform (implicitly_wait d 10))
                  (fun r =>
                     match r with
                     | Ok _ => Ret (true, self')
                     | Raise _ => Ret (false, self')
                     end)
            end)) w in
  let self' := snd (result o) in
  SeleniumAgentService.headless self' = SeleniumAgentService.headless self
  /\ ((exists d, collect starts (trace o) = [d]
                 /\ SeleniumAgentService.driver_ self' = Some d)
      \/ (collect starts (trace o) = []
          /\ SeleniumAgentService.driver_ self' = SeleniumAgentService.driver_ self
          /\ fst (result o) = false))
  /\ (fst (result o) = true ->
      exists d,
        SeleniumAgentService.driver_ self' = Some d
        /\ ends_with [Ev (set_window_size d width height) (Ok tt);
                      Ev (implicitly_wait d 10) (Ok tt)] (trace o)).
Proof.
  cbv zeta. rewrite run_pbind. cbv zeta.
  pose proof (start_chrome_cases (SeleniumAgentService.chrome_options self) w)
    as Hcases.
  cbv zeta in Hcases.
  set (o0 := run h (SeleniumAgentService.start_chrome
                      (SeleniumAgentService.chrome_options self)) w) in *.
  clearbody o0.
  destruct Hcases as [[[d [Hr Hs]] | [x [Hr Hs]]] _]; rewrite Hr.
  2:{ cbn [run result final trace fst snd]. rewrite app_nil_r.
      split; [reflexivity|]. split; [right; auto | discriminate]. }
  rewrite run_pbind, run_bind, run_perform. cbv zeta. cbn [result final trace].
  destruct (h (set_window_size d width height) (final o0)) as [[[]|x] w1];
    cbn [result final trace fst snd].
  - rewrite run_perform.
    destruct (h (implicitly_wait d 10) w1) as [[[]|x] w2];
      cbn [run result final trace fst snd app]; rewrite ?app_nil_r.
    + split; [reflexivity|]. split.
      * left. exists d. rewrite collect_app, Hs. split; reflexivity.
      * intros _. exists d. split; [reflexivity|].
        now exists (trace o0).
    + split; [reflexivity|]. split; [|discriminate].
      left. exists d. rewrite collect_app, Hs. split; reflexivity.
  - cbn [run result final trace fst snd app]. rewrite ?app_nil_r.
    split; [reflexivity|]. split; [|discriminate].
    left. exists d. rewrite collect_app, Hs. split; reflexivity.
Qed.

Lemma setup_driver_cases (self : SeleniumAgentService.t) (w : W) :
  let o := run h (SeleniumAgentService._setup_driver self) w in
  let self' := snd (result o) in
  SeleniumAgentService.headless self' = SeleniumAgentService.headless self
  /\ ((exists d, collect starts (trace o) = [d]
                 /\ SeleniumAgentService.driver_ self' = Some d)
      \/ (collect starts (trace o) = []
          /\ SeleniumAgentService.driver_ self' = SeleniumAgentService.driver_ self
          /\ fst (result o) = false))
  /\ (fst (result o) = true ->
      exists d,
        SeleniumAgentService.driver_ self' = Some d
        /\ ends_with [Ev (set_window_size d 1920 1080) (Ok tt);
                      Ev (implicitly_wait d 10) (Ok tt)] (trace o)).
Proof. exact (sized_setup_cases self 1920 1080 w). Qed.

End Provisioning.

(** X2.  [_setup_driver] makes provisioning calls only, the first of them
    the start of Chrome with the system's chromedriver.  At most one of its
    attempts starts a browser, and that browser is what [self.driver]
    holds afterwards; when none starts, [self.driver] is untouched and the
    answer is [False].  The answer is [True] only with a driver in place
    whose window was sized and whose implicit wait was set, as the last two
    calls. *)
Theorem setup_driver_starts_one_browser :
  forall (W : Type) (h : env W) (self : SeleniumAgentService.t) (w : W),
    let o := run h (SeleniumAgentService._setup_driver self) w in
    let self' := snd (result o) in
    made_of provisioning (trace o)
    /\ (exists r rest,
           trace o = Ev (webdriver_Chrome
                           (Some (py "/nix/store/*/bin/chromedriver"))
                           (SeleniumAgentService.chrome_options self)) r :: rest)
    /\ SeleniumAgentService.headless self' = SeleniumAgentService.headless self
    /\ ((exists d, collect starts (trace o) = [d]
                   /\ SeleniumAgentService.driver_ self' = Some d)
        \/ (collect starts (trace o) = []
            /\ SeleniumAgentService.driver_ self' = SeleniumAgentService.driver_ self
            /\ fst (result o) = false))
    /\ (fst (result o) = true ->
        exists d,
          SeleniumAgentService.driver_ self' = Some d
          /\ ends_with [Ev (set_window_size d 1920 1080) (Ok tt);
                        Ev (implicitly_wait d 10) (Ok tt)] (trace o)).
Proof.
  intros W h self w o self'. subst o self'.
  split; [apply calls_only_trace, setup_driver_calls|].
  split; [|apply setup_driver_cases].
  unfold SeleniumAgentService._setup_driver. rewrite run_pbind. cbv zeta.
  destruct (start_chrome_cases h (SeleniumAgentService.chrome_options self) w)
    as [_ [r [rest Htr]]].
  rewrite Htr. cbn [trace app]. eauto.
Qed.

(** X3.  A configured instance is reused as it is: [get_agent_response] on an
    instance that holds a driver starts no browser and makes no provisioning
    call (every call is one of the interaction with that session, or the
    clock read of a success), and the instance is unchanged afterwards. *)
Theorem configured_instance_is_reused :
  forall (W : Type) (h : env W) (headless_ : bool) (d : driver)
         (agent_url message : str) (agent_id : option str) (w : W),
    let self := {| SeleniumAgentService.headless := headless_;
                   SeleniumAgentService.driver_ := Some d |} in
    let o := run h (SeleniumAgentService.get_agent_response self agent_url
                      message agent_id) w in
    snd (result o) = self
    /\ made_of (interaction_or_clock d) (trace o)
    /\ collect starts (trace o) = []
    /\ collect quits (trace o) = [].
Proof.
  intros W h headless_ d agent_url message agent_id w self o.
  assert (Hd : SeleniumAgentService.driver_ self = Some d) by reflexivity.
  destruct (handlers_calls self agent_url message Hd) as [Hc Hg].
  assert (Hweak : forall tr, made_of (interaction d) tr ->
                             made_of (interaction_or_clock d) tr).
  { intros tr. apply made_of_weaken. intros R c. destruct c; cbn; auto. }
  assert (Hmade : snd (result o) = self /\ made_of (interaction_or_clock d) (trace o)).
  { subst o. rewrite run_get_agent_response. cbv zeta.
    change (SeleniumAgentService.driver_ self) with (Some d).
    cbn [run result final trace fst snd negb app].
    destruct (str_eqb _ _).
    - pose proof (@calls_only_trace _ _ _ h _ w Hc) as Ht.
      destruct (result (run h (SeleniumAgentService._handle_chatgpt_interaction
                                 self agent_url message) w)) as [r|];
        [destruct (truthy r)|]; cbn [result trace snd]; split; try reflexivity;
        try (apply Hweak; exact Ht).
      apply made_of_app; [apply Hweak; exact Ht|]. repeat constructor.
    - pose proof (@calls_only_trace _ _ _ h _ w Hg) as Ht.
      destruct (result (run h (SeleniumAgentService._handle_generic_interaction
                                 self agent_url message) w)) as [r|];
        [destruct (truthy r)|]; cbn [result trace snd]; split; try reflexivity;
        try (apply Hweak; exact Ht).
      apply made_of_app; [apply Hweak; exact Ht|]. repeat constructor. }
  destruct Hmade as [Hself Hmade]. split; [exact Hself|]. split; [exact Hmade|].
  clear - Hmade. induction Hmade as [|[R c r] tr Hev _ IH]; [split; reflexivity|].
  destruct IH as [IH1 IH2].
  destruct c; cbn in Hev; try discriminate; cbn; auto.
Qed.

(** X4.  When Chrome starts but its window cannot be sized, [_setup_driver]
    answers [False] with the browser already in [self.driver]: the call of
    [get_agent_response] returns the driver-failure object, does not quit the
    browser it started, and hands back an instance that holds it. *)
Theorem failed_setup_keeps_the_browser :
  forall (W : Type) (h : env W) (self : SeleniumAgentService.t)
         (agent_url message : str) (agent_id : option str) (w w1 w2 : W)
         (d : driver) (x : exn),
    SeleniumAgentService.driver_ self = None ->
    h _ (webdriver_Chrome (Some (py "/nix/store/*/bin/chromedriver"))
           (SeleniumAgentService.chrome_options self)) w = (Ok d, w1) ->
    h _ (set_window_size d 1920 1080) w1 = (Raise x, w2) ->
    let o := run h (SeleniumAgentService.get_agent_response self agent_url
                      message agent_id) w in
    fst (result o) = Ok SeleniumAgentService.driver_failure
    /\ SeleniumAgentService.driver_ (snd (result o)) = Some d
    /\ collect starts (trace o) = [d]
    /\ collect quits (trace o) = [].
Proof.
  intros W h self agent_url message agent_id w w1 w2 d x Hnone Hstart Hsize o.
  subst o. rewrite run_get_agent_response. cbv zeta. rewrite Hnone.
  assert (Hsetup : run h (SeleniumAgentService._setup_driver self) w
                   = Outcome (false, SeleniumAgentService.set_driver self d) w2
                       [Ev (webdriver_Chrome
                              (Some (py "/nix/store/*/bin/chromedriver"))
                              (SeleniumAgentService.chrome_options self)) (Ok d);
                        Ev (set_window_size d 1920 1080) (Raise x)]).
  { unfold SeleniumAgentService._setup_driver, SeleniumAgentService.start_chrome.
    rewrite run_pbind, run_try, run_perform, Hstart. cbv zeta.
    cbn [result final trace fst snd].
    rewrite run_pbind, run_bind, run_perform, Hsize. cbv zeta.
    cbn [run result final trace fst snd app]. reflexivity. }
  rewrite Hsetup. cbn [result final trace fst snd negb]. repeat split.
Qed.

(** The browser of the synthetic page with a window that cannot be sized. *)
Lemma browser_kept_after_fixed_window :
  let o := run answer_fixed_window
             (SeleniumAgentService.get_agent_response
                (SeleniumAgentService.__init__ true)
                (py "https://chatgpt.com/") (py "hola") None)
             (Synthetic.browser_with true Synthetic.chat_page []) in
  fst (result o) = Ok SeleniumAgentService.driver_failure
  /\ SeleniumAgentService.driver_ (snd (result o)) = Some 0
  /\ collect starts (trace o) = [0]
  /\ collect quits (trace o) = [].
Proof.
  apply (@failed_setup_keeps_the_browser _ answer_fixed_window
           (SeleniumAgentService.__init__ true)
           (py "https://chatgpt.com/") (py "hola") None
           (Synthetic.browser_with true Synthetic.chat_page [])
           (Synthetic.browser_with true Synthetic.chat_page [])
           (Synthetic.browser_with true Synthetic.chat_page [])
           0 (Exn OtherException (py "window is not resizable")));
    reflexivity.
Defined.

(* ===================================================================== *)
(** * The scripts *)
(* ===================================================================== *)

Lemma monitor_app {S : Type} (step : S -> event -> option S) (s : S)
    (tr1 tr2 : list event) :
  monitor step s (tr1 ++ tr2)
  = match monitor step s tr1 with
    | Some s' => monitor step s' tr2
    | None => None
    end.
Proof.
  revert s. induction tr1 as [|ev tr1 IH]; intros s; [reflexivity|].
  cbn. destruct (step s ev); [apply IH | reflexivity].
Qed.

(** A trace that starts and quits nothing leaves the session as it is. *)
Lemma session_untouched (live : option driver) (tr : list event) :
  collect starts tr = [] -> collect quits tr = [] ->
  monitor session_step live tr = Some live.
Proof.
  induction tr as [|ev tr IH]; intros Hs Hq; [reflexivity|].
  cbn in *. unfold session_step.
  destruct (starts ev); [discriminate|].
  destruct (quits ev); [discriminate|].
  destruct live; apply IH; assumption.
Qed.

(** A trace that starts one browser, with none live before, and quits
    nothing leaves that browser live. *)
Lemma session_started (tr : list event) (d : driver) :
  collect starts tr = [d] -> collect quits tr = [] ->
  monitor session_step None tr = Some (Some d).
Proof.
  induction tr as [|ev tr IH]; intros Hs Hq; [discriminate|].
  cbn in *. unfold session_step.
  destruct (starts ev) as [d'|].
  - injection Hs as -> Hs.
    destruct (quits ev); [discriminate|]. now apply session_untouched.
  - destruct (quits ev); [discriminate|]. now apply IH.
Qed.

Lemma starts_not_quits (ev : event) (d : driver) :
  starts ev = Some d -> quits ev = None.
Proof. destruct ev as [R c r]. destruct c; cbn; congruence. Qed.

Lemma provisioning_quits_nothing (tr : list event) :
  made_of provisioning tr -> collect quits tr = [].
Proof.
  intros H. induction H as [|[R c r] tr Hev _ IH]; [reflexivity|].
  destruct c; cbn in Hev; try discriminate; cbn; exact IH.
Qed.

Lemma interaction_starts_nothing (d : driver) (tr : list event) :
  made_of (interaction_or_clock d) tr ->
  collect starts tr = [] /\ collect quits tr = [].
Proof.
  intros H. induction H as [|[R c r] tr Hev _ IH]; [split; reflexivity|].
  destruct IH as [IH1 IH2].
  destruct c; cbn in Hev; try discriminate; cbn; auto.
Qed.

Section Sessions.

Variable W : Type.
Variable h : env W.

(** After [get_agent_response] the live browser, if any, is the one the
    instance holds. *)
Lemma get_agent_response_session (self : SeleniumAgentService.t)
    (agent_url message : str) (agent_id : option str) (w : W) :
  let o := run h (SeleniumAgentService.get_agent_response self agent_url
                    message agent_id) w in
  monitor session_step (SeleniumAgentService.driver_ self) (trace o)
  = Some (SeleniumAgentService.driver_ (snd (result o))).
Proof.
  cbv zeta. rewrite run_get_agent_response. cbv zeta.
  destruct (SeleniumAgentService.driver_ self) as [d|] eqn:Hd.
  - cbn [run result final trace fst snd negb app].
    destruct (handlers_calls self agent_url message Hd) as [Hc Hg].
    assert (Hweak : forall tr, made_of (interaction d) tr ->
                               made_of (interaction_or_clock d) tr).
    { intros tr. apply made_of_weaken. intros R c. destruct c; cbn; auto. }
    assert (Hstep : forall tr, made_of (interaction_or_clock d) tr ->
                               monitor session_step (Some d) tr = Some (Some d)).
    { intros tr Htr. destruct (interaction_starts_nothing Htr).
      now apply session_untouched. }
    destruct (str_eqb _ _).
    + pose proof (@calls_only_trace _ _ _ h _ w Hc) as Ht.
      destruct (result (run h (SeleniumAgentService._handle_chatgpt_interaction
                                 self agent_url message) w)) as [r|];
        [destruct (truthy r)|]; cbn [result trace snd]; rewrite Hd;
        apply Hstep; try (apply Hweak; exact Ht).
      apply made_of_app; [apply Hweak; exact Ht|]. repeat constructor.
    + pose proof (@calls_only_trace _ _ _ h _ w Hg) as Ht.
      destruct (result (run h (SeleniumAgentService._handle_generic_interaction
                                 self agent_url message) w)) as [r|];
        [destruct (truthy r)|]; cbn [result trace snd]; rewrite Hd;
        apply Hstep; try (apply Hweak; exact Ht).
      apply made_of_app; [apply Hweak; exact Ht|]. repeat constructor.
  - pose proof (@calls_only_trace _ _ _ h _ w (setup_driver_calls self)) as Hprov.
    apply provisioning_quits_nothing in Hprov.
    destruct (setup_driver_cases h self w) as [_ [Hstarted Hok]].
    cbv zeta in Hstarted, Hok. rewrite Hd in Hstarted.
    set (o0 := run h (SeleniumAgentService._setup_driver self) w) in *.
    assert (Hsetup : monitor session_step None (trace o0)
                     = Some (SeleniumAgentService.driver_ (snd (result o0)))).
    { destruct Hstarted as [[d [Hs Hdrv]] | [Hs [Hdrv _]]]; rewrite Hdrv.
      - now apply session_started.
      - now apply session_untouched. }
    destruct (fst (result o0)) eqn:Hfst; cbn [negb].
    2:{ cbn [result trace snd]. exact Hsetup. }
    destruct (Hok eq_refl) as [d [Hdrv _]].
    set (self1 := snd (result o0)) in *.
    destruct (handlers_calls self1 agent_url message Hdrv) as [Hc Hg].
    assert (Hweak : forall tr, made_of (interaction d) tr ->
                               made_of (interaction_or_clock d) tr).
    { intros tr. apply made_of_weaken. intros R c. destruct c; cbn; auto. }
    assert (Hstep : forall tr, made_of (interaction_or_clock d) tr ->
              monitor session_step None (trace o0 ++ tr) = Some (Some d)).
    { intros tr Htr. rewrite monitor_app, Hsetup, Hdrv.
      destruct (interaction_starts_nothing Htr). now apply session_untouched. }
    destruct (str_eqb _ _).
    + pose proof (@calls_only_trace _ _ _ h _ (final o0) Hc) as Ht.
      destruct (result (run h (SeleniumAgentService._handle_chatgpt_interaction
                                 self1 agent_url message) (final o0))) as [r|];
        [destruct (truthy r)|]; cbn [result trace snd]; rewrite Hdrv;
        apply Hstep; try (apply Hweak; exact Ht).
      apply made_of_app; [apply Hweak; exact Ht|]. repeat constructor.
    + pose proof (@calls_only_trace _ _ _ h _ (final o0) Hg) as Ht.
      destruct (result (run h (SeleniumAgentService._handle_generic_interaction
                                 self1 agent_url message) (final o0))) as [r|];
        [destruct (truthy r)|]; cbn [result trace snd]; rewrite Hdrv;
        apply Hstep; try (apply Hweak; exact Ht).
      apply made_of_app; [apply Hweak; exact Ht|]. repeat constructor.
Qed.

End Sessions.

(** X5.  Called with fewer than two arguments, both scripts print one
    object that says [success = False] with the usage text as its error,
    with no [response] field, and exit with status 1 without calling
    anything: no browser is started, no clock is read. *)
Theorem scripts_usage_error :
  forall (W : Type) (h : env W) (L : library) (argv : list str) (w : W),
    length argv < 3 ->
    let selenium := run h (seleniumAgentService.main argv) w in
    let simple := run h (simpleWebScrapingService.main L argv) w in
    result selenium = {| printed := [seleniumAgentService.usage]; exit_status := 1 |}
    /\ trace selenium = []
    /\ result simple = {| printed := [simpleWebScrapingService.usage]; exit_status := 1 |}
    /\ trace simple = []
    /\ keys seleniumAgentService.usage = ["success"; "error"]%string
    /\ keys simpleWebScrapingService.usage = ["success"; "error"]%string
    /\ lookup "success" seleniumAgentService.usage = Some (VBool false)
    /\ lookup "success" simpleWebScrapingService.usage = Some (VBool false).
Proof.
  intros W h L argv w Hlen selenium simple. subst selenium simple.
  unfold seleniumAgentService.main, simpleWebScrapingService.main.
  apply Nat.ltb_lt in Hlen. rewrite Hlen. repeat split.
Qed.

(** The scripts started with the URL alone. *)
Lemma scripts_usage_error_on_one_argument :
  let argv := [py "seleniumAgentService.py"; py "https://chatgpt.com/"] in
  let selenium := run Synthetic.answer (seleniumAgentService.main argv)
                    (Synthetic.browser_with true Synthetic.chat_page []) in
  let simple := run Synthetic.answer
                  (simpleWebScrapingService.main Synthetic.ascii_library argv)
                  (Synthetic.browser_with true Synthetic.chat_page []) in
  result selenium = {| printed := [seleniumAgentService.usage]; exit_status := 1 |}
  /\ trace selenium = []
  /\ result simple = {| printed := [simpleWebScrapingService.usage]; exit_status := 1 |}
  /\ trace simple = []
  /\ keys seleniumAgentService.usage = ["success"; "error"]%string
  /\ keys simpleWebScrapingService.usage = ["success"; "error"]%string
  /\ lookup "success" seleniumAgentService.usage = Some (VBool false)
  /\ lookup "success" simpleWebScrapingService.usage = Some (VBool false).
Proof.
  apply (@scripts_usage_error _ Synthetic.answer Synthetic.ascii_library
           [py "seleniumAgentService.py"; py "https://chatgpt.com/"]
           (Synthetic.browser_with true Synthetic.chat_page [])).
  cbn. lia.
Defined.



(** X7.  Over a whole run of the Selenium script, whatever its arguments and
    whatever the browser does: a browser is started only when none is live,
    only the live browser is quit, and none is live at the end.  So a
    browser that was started is quit exactly once, also when the setup or
    the interaction fails. *)
Theorem selenium_script_releases_the_browser :
  forall (W : Type) (h : env W) (argv : list str) (w : W),
    let tr := trace (run h (seleniumAgentService.main argv) w) in
    monitor session_step None tr = Some None
    /\ collect starts tr = collect quits tr.
Proof.
  intros W h argv w tr.
  assert (Hmon : monitor session_step None tr = Some None).
  { subst tr. unfold seleniumAgentService.main.
    destruct (length argv <? 3); [reflexivity|]. cbv zeta.
    rewrite run_pbind. cbv zeta.
    pose proof (get_agent_response_session h (SeleniumAgentService.__init__ true)
                  (nth 1 argv []) (nth 2 argv [])
                  (if 3 <? length argv then Some (nth 3 argv []) else None) w)
      as Hs.
    cbv zeta in Hs. cbn [SeleniumAgentService.__init__ SeleniumAgentService.driver_] in Hs.
    set (o := run h _ w) in *.
    destruct (result o) as [r self1]. cbn [snd] in Hs.
    cbn [trace]. rewrite monitor_app, Hs.
    rewrite run_pbind. cbv zeta. unfold SeleniumAgentService.close.
    destruct (SeleniumAgentService.driver_ self1) as [d|].
    - cbn [run]. destruct (h _ (driver_quit d) (final o)) as [q w1].
      cbn [run result final trace app].
      destruct r; cbn [run trace app monitor]; unfold session_step; cbn;
        rewrite Nat.eqb_refl; reflexivity.
    - cbn [run result final trace app]. destruct r; reflexivity. }
  split; [exact Hmon|].
  clear - Hmon. 
  assert (G : forall (tr : list event) (live : option driver),
             monitor session_step live tr = Some None ->
             match live with
             | Some d => d :: collect starts tr
             | None => collect starts tr
             end = collect quits tr).
  { clear. induction tr as [|ev tr IH]; intros live H.
    - cbn in H. injection H as ->. reflexivity.
    - cbn in H. unfold session_step in H. cbn [collect].
      pose proof (starts_not_quits ev) as Hev.
      destruct (starts ev) as [d|]; destruct (quits ev) as [q|];
        destruct live as [d'|]; try discriminate;
        try (specialize (Hev _ eq_refl); discriminate).
      + apply (IH (Some d)) in H. exact H.
      + destruct (q =? d') eqn:E; [|discriminate].
        apply Nat.eqb_eq in E. subst q. apply (IH None) in H. now rewrite H.
      + apply (IH (Some d')) in H. exact H.
      + apply (IH None) in H. exact H. }
  apply (G tr None Hmon).
Qed.

(* ===================================================================== *)
(** * The order of the steps *)
(* ===================================================================== *)

Section Protocol.

Variable W : Type.
Variable h : env W.

Lemma chatgpt_steps_protocol (self : SeleniumAgentService.t)
    (agent_url message : str) (w : W) (r : str) :
  let o := run h (SeleniumAgentService.chatgpt_steps self agent_url message) w in
  result o = Ok (Some r) ->
  exists d text_area button A B C,
    SeleniumAgentService.driver_ self = Some d
    /\ trace o
       = Ev (driver_get d agent_url) (Ok tt)
         :: A ++ Ev (clear text_area) (Ok tt)
                 :: Ev (send_keys text_area message) (Ok tt)
                 :: B ++ Ev (is_enabled button) (Ok true)
                         :: Ev (click button) (Ok tt)
                         :: Ev (sleep 3) tt :: C
    /\ Forall (fun ev => looks_up ev = true) A
    /\ Forall (fun ev => looks_up ev = true) B
    /\ Forall (fun ev => looks_up ev = true) C.
Proof.
  cbv zeta.
  unfold SeleniumAgentService.chatgpt_steps, SeleniumAgentService.the_driver.
  destruct (SeleniumAgentService.driver_ self) as [d|]; run_steps;
    [|discriminate].
  destruct (h (driver_get d agent_url) w) as [[[]|x] w1]; run_steps;
    [|discriminate].
  pose proof (find_text_area_looks_up h d SeleniumAgentService.text_selectors w1)
    as HA.
  set (o1 := run h (SeleniumAgentService.find_text_area d
                      SeleniumAgentService.text_selectors) w1) in *.
  destruct (result o1) as [[text_area|]|x]; run_steps; try discriminate.
  destruct (h (clear text_area) (final o1)) as [[[]|x] w2]; run_steps;
    [|discriminate].
  destruct (h (send_keys text_area message) w2) as [[[]|x] w3]; run_steps;
    [|discriminate].
  pose proof (find_send_button_looks_up h d SeleniumAgentService.send_selectors
                None w3) as HB.
  set (o2 := run h (SeleniumAgentService.find_send_button d
                      SeleniumAgentService.send_selectors None) w3) in *.
  destruct (result o2) as [[button|]|x]; run_steps; try discriminate.
  destruct (h (is_enabled button) (final o2)) as [[[|]|x] w4]; run_steps;
    try discriminate.
  destruct (h (click button) w4) as [[[]|x] w5]; run_steps; [|discriminate].
  destruct (h (sleep 3) w5) as [[] w6]. run_steps.
  pose proof (read_response_looks_up h d SeleniumAgentService.response_selectors
                w6) as HC.
  set (o3 := run h (SeleniumAgentService.read_response d
                      SeleniumAgentService.response_selectors) w6) in *.
  intros Hr.
  exists d, text_area, button, (trace o1), (trace o2), (trace o3).
  split; [reflexivity|]. split; [|auto].
  destruct (result o3); run_steps;
    repeat first [rewrite <- app_assoc | rewrite app_nil_r | progress cbn [app]];
    reflexivity.
Qed.

End Protocol.

(** X8.  A specialized interaction that returns a response has done, in this
    order and each exactly once: gone to the URL, cleared a field and typed
    the message into it, asked the send button whether it is enabled and
    been told so, clicked it and waited three seconds.  Everything else in
    the run only looks at the page: the response is read after the click,
    never before. *)
Theorem successful_specialized_interaction_protocol :
  forall (W : Type) (h : env W) (self : SeleniumAgentService.t)
         (agent_url message : str) (w : W) (r : str),
    let o := run h (SeleniumAgentService._handle_chatgpt_interaction self
                      agent_url message) w in
    result o = Some r ->
    exists d text_area button A B C,
      SeleniumAgentService.driver_ self = Some d
      /\ trace o
         = Ev (driver_get d agent_url) (Ok tt)
           :: A ++ Ev (clear text_area) (Ok tt)
                   :: Ev (send_keys text_area message) (Ok tt)
                   :: B ++ Ev (is_enabled button) (Ok true)
                           :: Ev (click button) (Ok tt)
                           :: Ev (sleep 3) tt :: C
      /\ Forall (fun ev => looks_up ev = true) A
      /\ Forall (fun ev => looks_up ev = true) B
      /\ Forall (fun ev => looks_up ev = true) C.
Proof.
  intros W h self agent_url message w r o. subst o.
  unfold SeleniumAgentService._handle_chatgpt_interaction.
  rewrite run_pbind. cbv zeta.
  pose proof (@chatgpt_steps_protocol _ h self agent_url message w r) as Hp.
  cbv zeta in Hp.
  destruct (result (run h (SeleniumAgentService.chatgpt_steps self agent_url
                             message) w)) as [[r0|]|x];
    cbn [run result final trace]; try discriminate.
  intros E. injection E as ->. rewrite app_nil_r. apply Hp. reflexivity.
Qed.

(** The steps on the chat page. *)
Lemma specialized_protocol_on_chat_page :
  exists d text_area button A B C,
    SeleniumAgentService.driver_
      (SeleniumAgentService.set_driver (SeleniumAgentService.__init__ true) 0)
    = Some d
    /\ trace (run Synthetic.answer
                (SeleniumAgentService._handle_chatgpt_interaction
                   (SeleniumAgentService.set_driver
                      (SeleniumAgentService.__init__ true) 0)
                   (py "https://chatgpt.com/") (py "hola"))
                (Synthetic.browser_with true Synthetic.chat_page []))
       = Ev (driver_get d (py "https://chatgpt.com/")) (Ok tt)
         :: A ++ Ev (clear text_area) (Ok tt)
                 :: Ev (send_keys text_area (py "hola")) (Ok tt)
                 :: B ++ Ev (is_enabled button) (Ok true)
                         :: Ev (click button) (Ok tt)
                         :: Ev (sleep 3) tt :: C
    /\ Forall (fun ev => looks_up ev = true) A
    /\ Forall (fun ev => looks_up ev = true) B
    /\ Forall (fun ev => looks_up ev = true) C.
Proof.
  apply (@successful_specialized_interaction_protocol _ Synthetic.answer
           (SeleniumAgentService.set_driver (SeleniumAgentService.__init__ true) 0)
           (py "https://chatgpt.com/") (py "hola")
           (Synthetic.browser_with true Synthetic.chat_page [])
           (py "The newest reply of the assistant.")).
  vm_compute. reflexivity.
Defined.

(* ===================================================================== *)
(** * The generic strategy types into a usable field *)
(* ===================================================================== *)

Lemma typing_into_keeps (e : element) (tr : list event) :
  made_of (typing_into e) tr ->
  monitor typing_step (Usable e) tr = Some (Usable e).
Proof.
  intros H. induction H as [|[R c r] tr Hev _ IH]; [reflexivity|].
  cbn [monitor].
  destruct c; cbn in Hev; try discriminate; cbn [typing_step];
    try rewrite Hev; exact IH.
Qed.

Ltac typing_steps :=
  repeat first [progress cbn [monitor typing_step] | rewrite Nat.eqb_refl].

Section Typing.

Variable W : Type.
Variable h : env W.
Variable d : driver.

Lemma submit_and_read_typing (text_area : element) (w : W) :
  monitor typing_step (Usable text_area)
    (trace (run h (SeleniumAgentService.submit_and_read d text_area) w))
  = Some (Usable text_area).
Proof.
  apply typing_into_keeps, calls_only_trace.
  unfold SeleniumAgentService.submit_and_read, SeleniumAgentService.read_page.
  walk_calls.
Qed.

Lemma try_generic_selector_typing (message s : str) (w : W) (s0 : field_state) :
  exists s1,
    monitor typing_step s0
      (trace (run h (SeleniumAgentService.try_generic_selector d message s) w))
    = Some s1.
Proof.
  unfold SeleniumAgentService.try_generic_selector.
  rewrite run_try. run_steps.
  assert (Hend : forall (x : exn) (w' : W) (s' : field_state),
             exists s1,
               monitor typing_step s'
                 (trace (run h (if is_NoSuchElement x
                                then ret (@None str) else raise x) w'))
               = Some s1).
  { intros x w' s'. destruct (is_NoSuchElement x); now exists s'. }
  destruct (h (find_element d CSS_SELECTOR s) w) as [[text_area|x] w1];
    run_steps.
  2:{ typing_steps. apply Hend. }
  destruct (h (is_displayed text_area) w1) as [[[|]|x] w2]; run_steps.
  2:{ typing_steps. now eexists. }
  2:{ typing_steps. apply Hend. }
  destruct (h (is_enabled text_area) w2) as [[[|]|x] w3]; run_steps.
  2:{ typing_steps. now eexists. }
  2:{ typing_steps. apply Hend. }
  destruct (h (clear text_area) w3) as [[[]|x] w4]; run_steps.
  2:{ typing_steps. apply Hend. }
  destruct (h (send_keys text_area message) w4) as [[[]|x] w5]; run_steps.
  2:{ typing_steps. apply Hend. }
  pose proof (submit_and_read_typing text_area w5) as Hsub.
  set (o := run h (SeleniumAgentService.submit_and_read d text_area) w5) in *.
  assert (Hpre : forall rest,
             monitor typing_step s0
               (Ev (find_element d CSS_SELECTOR s) (Ok text_area)
                :: Ev (is_displayed text_area) (Ok true)
                :: Ev (is_enabled text_area) (Ok true)
                :: Ev (clear text_area) (Ok tt)
                :: Ev (send_keys text_area message) (Ok tt) :: trace o ++ rest)
             = monitor typing_step (Usable text_area) rest).
  { intros rest. typing_steps. now rewrite monitor_app, Hsub. }
  destruct (result o) as [found|x]; run_steps.
  - rewrite <- (app_nil_r (trace o)), Hpre. now eexists.
  - rewrite Hpre. apply Hend.
Qed.

Lemma generic_loop_typing (message : str) (candidates : list str) (w : W)
    (s0 : field_state) :
  exists s1,
    monitor typing_step s0
      (trace (run h (SeleniumAgentService.generic_loop d message candidates) w))
    = Some s1.
Proof.
  revert w s0. induction candidates as [|s rest IH]; intros w s0.
  - now exists s0.
  - cbn [SeleniumAgentService.generic_loop]. rewrite run_bind. cbv zeta.
    destruct (try_generic_selector_typing message s w s0) as [s1 Hs1].
    destruct (result (run h (SeleniumAgentService.try_generic_selector d
                               message s) w)) as [[page|]|x];
      cbn [run ret result final trace]; rewrite ?app_nil_r.
    + now exists s1.
    + rewrite monitor_app, Hs1. apply IH.
    + now exists s1.
Qed.

End Typing.

(** X9.  In every run of the generic interaction, [is_enabled] is asked only
    of the element that has just reported itself displayed, and [clear] and
    [send_keys] only act on the element that reported itself displayed and
    enabled: the message, and the newline that stands in for a missing send
    button, are never typed into a field that did not say it was usable. *)
Theorem generic_interaction_types_into_usable_field :
  forall (W : Type) (h : env W) (self : SeleniumAgentService.t)
         (agent_url message : str) (w : W),
    exists s,
      monitor typing_step Unchecked
        (trace (run h (SeleniumAgentService._handle_generic_interaction self
                         agent_url message) w))
      = Some s.
Proof.
  intros W h self agent_url message w.
  destruct (run_handle_generic h self agent_url message w) as [Htr _].
  cbv zeta in Htr. rewrite Htr. clear Htr.
  unfold SeleniumAgentService.generic_steps, SeleniumAgentService.the_driver.
  destruct (SeleniumAgentService.driver_ self) as [d|]; run_steps.
  2:{ now exists Unchecked. }
  destruct (h _ (driver_get d agent_url) w) as [[[]|x] w1]; run_steps.
  2:{ now exists Unchecked. }
  destruct (h _ (sleep 5) w1) as [[] w2]. run_steps.
  cbn [monitor typing_step]. apply generic_loop_typing.
Qed.

(** The specialized interaction gives no such guarantee: on the page whose
    first input candidate is disabled it clears that field without having
    asked it anything. *)
Lemma specialized_interaction_types_unchecked :
  monitor typing_step Unchecked
    (trace (run Synthetic.answer
              (SeleniumAgentService._handle_chatgpt_interaction
                 (SeleniumAgentService.set_driver
                    (SeleniumAgentService.__init__ true) 0)
                 (py "https://chatgpt.com/") (py "hola"))
              (Synthetic.browser_with true Synthetic.two_inputs_page [])))
  = None.
Proof. vm_compute. reflexivity. Qed.

(* ===================================================================== *)
(** * The simulated replies *)
(* ===================================================================== *)

(** A template: text, the name, text, the message, text. *)
Lemma template_names_the_agent (a n b m c : str) :
  occurs_in n (a ++ n ++ b ++ m ++ c).
Proof. now exists a, (b ++ m ++ c). Qed.

Lemma template_quotes_the_message (a n b m c : str) :
  str_eqb b (removelast b ++ py "'") = true ->
  str_eqb c (py "'" ++ tl c) = true ->
  occurs_in (py "'" ++ m ++ py "'") (a ++ n ++ b ++ m ++ c).
Proof.
  intros Hb Hc. apply str_eqb_eq in Hb, Hc.
  exists (a ++ n ++ removelast b), (tl c).
  rewrite Hb at 1. rewrite Hc at 1. now rewrite <- !app_assoc.
Qed.

Lemma template_is_long (a n b m c : str) :
  (10 <? length a + length b + length c) = true ->
  10 < length (a ++ n ++ b ++ m ++ c).
Proof. intros H. apply Nat.ltb_lt in H. rewrite !length_app. lia. Qed.

Lemma responses_well_formed (message agent_name : str) :
  Forall (fun entry => Forall (well_formed_reply message agent_name) (snd entry))
    (SimpleWebScrapingService.responses message agent_name).
Proof.
  unfold SimpleWebScrapingService.responses.
  repeat (apply Forall_cons; [cbn [snd]|]); try apply Forall_nil;
    repeat (apply Forall_cons; [|]); try apply Forall_nil;
    (split; [apply template_names_the_agent|]);
    (split; [|apply template_is_long; vm_compute; reflexivity]);
    (apply template_quotes_the_message; vm_compute; reflexivity).
Qed.

Lemma responses_get_among (category : str) (table : list (str * list str))
    (default : list str) (Q : list str -> Prop) :
  Forall (fun entry => Q (snd entry)) table -> Q default ->
  Q (SimpleWebScrapingService.responses_get category table default).
Proof.
  intros Ht Hd. induction Ht as [|[k v] table Hv _ IH]; [exact Hd|].
  cbn [SimpleWebScrapingService.responses_get].
  destruct (str_eqb category k); [exact Hv | exact IH].
Qed.

(** X10.  Every reply of the simulated responder names the agent, quotes the
    message between single quotes, and is longer than ten characters, so
    that it also meets the threshold the live path puts on a response. *)
Theorem simulated_reply_quotes_the_message :
  forall (L : library) (W : Type) (h : env W) (w : W)
         (message agent_type agent_name reply : str),
    result (run h (SimpleWebScrapingService._generate_simulated_response L
                     message agent_type agent_name) w) = Ok reply ->
    occurs_in agent_name reply
    /\ occurs_in (py "'" ++ message ++ py "'") reply
    /\ 10 < length reply.
Proof.
  intros L W h w message agent_type agent_name reply.
  rewrite run_generate. cbv zeta. cbn [result].
  destruct (nth_error _ _) as [x|] eqn:E; [|discriminate].
  intros Hx. injection Hx as ->. apply nth_error_In in E.
  revert reply E. apply Forall_forall.
  pose proof (responses_well_formed message agent_name) as Hall.
  apply responses_get_among; [exact Hall|].
  apply responses_get_among; [exact Hall | constructor].
Qed.

(** A reply for a travel agent. *)
Lemma simulated_reply_for_a_travel_agent :
  occurs_in (py "Viajes Sol")
    (py "¡Hola! Soy Viajes Sol, tu asistente especializado en viajes. He visto tu consulta sobre 'hola'. Puedo ayudarte con reservas de vuelos, hoteles, itinerarios personalizados y recomendaciones de destinos. ¿En qué aspecto específico de tu viaje puedo asistirte?")
  /\ occurs_in (py "'" ++ py "hola" ++ py "'")
       (py "¡Hola! Soy Viajes Sol, tu asistente especializado en viajes. He visto tu consulta sobre 'hola'. Puedo ayudarte con reservas de vuelos, hoteles, itinerarios personalizados y recomendaciones de destinos. ¿En qué aspecto específico de tu viaje puedo asistirte?")
  /\ 10 < length
            (py "¡Hola! Soy Viajes Sol, tu asistente especializado en viajes. He visto tu consulta sobre 'hola'. Puedo ayudarte con reservas de vuelos, hoteles, itinerarios personalizados y recomendaciones de destinos. ¿En qué aspecto específico de tu viaje puedo asistirte?").
Proof.
  apply (@simulated_reply_quotes_the_message Synthetic.ascii_library _
           Synthetic.answer (Synthetic.browser_with true [] [0])
           (py "hola") (py "unknown") (py "Viajes Sol")).
  vm_compute. reflexivity.
Defined.


(* ===================================================================== *)
(** * The name of the agent *)
(* ===================================================================== *)





Section Names.

Variable L : library.





End Names.


(** The names of a GPT, of a plain site, and of a URL [urlparse] refuses. *)
Lemma agent_names_of_three_urls :
  result (run Synthetic.answer
            (SimpleWebScrapingService._extract_agent_name Synthetic.ascii_library
               (py "https://chatgpt.com/g/g-123-smart-flyer-viajes"))
            (Synthetic.browser_with true [] []))
  = py "Smart Flyer Viajes"
  /\ result (run Synthetic.answer
               (SimpleWebScrapingService._extract_agent_name Synthetic.ascii_library
                  (py "https://chatgpt.com/g/g-42"))
               (Synthetic.browser_with true [] []))
     = py "Chatgpt"
  /\ result (run Synthetic.answer
               (SimpleWebScrapingService._extract_agent_name Synthetic.ascii_library
                  (py "https://www.claude.ai/chat"))
               (Synthetic.browser_with true [] []))
     = py "Claude"
  /\ result (run Synthetic.answer
               (SimpleWebScrapingService._extract_agent_name
                  {| lower := lower Synthetic.ascii_library;
                     capitalize := capitalize Synthetic.ascii_library;
                     isdigit := isdigit Synthetic.ascii_library;
                     urlparse_netloc :=
                       fun _ => Raise (Exn OtherException (py "Invalid IPv6 URL")) |}
                  (py "http://[::1"))
               (Synthetic.browser_with true [] []))
     = py "Agente IA".
Proof. vm_compute. repeat split. Qed.

(* ===================================================================== *)
(** * The clock of the result objects *)
(* ===================================================================== *)

(** X13.  When the random generator honours its bound, a run of the
    simulated service reads the clock once, draws one index, and reads the
    clock twice more, and it does nothing else.  Its result is a success
    whose [processing_time] is the second reading less the first, whose
    [timestamp] is the third reading, and whose [agent_id] is the argument
    ([None] when it was left out). *)
Theorem simulated_service_timing :
  forall (L : library) (W : Type) (h : env W) (agent_url message : str)
         (agent_id : option str) (w : W),
    fst (h _ (randbelow 3) (snd (h _ time w))) < 3 ->
    let o := run h (SimpleWebScrapingService.get_agent_response L agent_url
                      message agent_id) w in
    exists start_time i finished timestamp d,
      trace o = [Ev time start_time; Ev (randbelow 3) i; Ev time finished;
                 Ev time timestamp]
      /\ made_of offline (trace o)
      /\ result o = Ok d
      /\ succeeded d
      /\ lookup "processing_time" d
         = Some (VFloat (PrimFloat.sub finished start_time))
      /\ lookup "timestamp" d = Some (VFloat timestamp)
      /\ lookup "agent_id" d = Some (of_optional agent_id).
Proof.
  intros L W h agent_url message agent_id w Hdraw o. subst o.
  rewrite run_simple_get_agent_response. cbv zeta.
  rewrite run_generate. cbv zeta. cbn [result final trace].
  set (name := result (run h (SimpleWebScrapingService._extract_agent_name L
                                agent_url) _)).
  pose proof (response_templates_three L message name) as H3. cbv zeta in H3.
  destruct (nth_error _ _) as [reply|] eqn:E.
  2:{ apply nth_error_None in E. rewrite H3 in E. lia. }
  do 5 eexists. cbn [result final trace app].
  split; [reflexivity|].
  split; [repeat constructor|].
  split; [reflexivity|].
  repeat split.
Qed.

(** A run with one draw, on the clock of the synthetic world. *)
Lemma simulated_service_timing_with_one_draw :
  exists start_time i finished timestamp d,
    trace (run Synthetic.answer
             (SimpleWebScrapingService.get_agent_response Synthetic.ascii_library
                (py "https://example.org/bot") (py "hola") None)
             (Synthetic.browser_with true [] [1]))
    = [Ev time start_time; Ev (randbelow 3) i; Ev time finished;
       Ev time timestamp]
    /\ lookup "processing_time" d
       = Some (VFloat (PrimFloat.sub finished start_time))
    /\ lookup "agent_id" d = Some VNone.
Proof.
  destruct (@simulated_service_timing Synthetic.ascii_library _ Synthetic.answer
              (py "https://example.org/bot") (py "hola") None
              (Synthetic.browser_with true [] [1]))
    as [t0 [i [t1 [t2 [d [Htr [_ [_ [_ [Hp [_ Hid]]]]]]]]]]].
  - vm_compute. lia.
  - exists t0, i, t1, t2, d. split; [exact Htr|]. split; [exact Hp | exact Hid].
Defined.



(** X15.  A success of the Selenium service echoes the request: its
    [agent_type] is the category of the URL, its [agent_id] the argument
    ([None] when it was left out), and its [timestamp] is the clock read as
    the last step of the run, after the interaction. *)
Theorem selenium_success_echoes_the_request :
  forall (W : Type) (h : env W) (self : SeleniumAgentService.t)
         (agent_url message : str) (agent_id : option str) (w : W) (d : dict),
    let o := run h (SeleniumAgentService.get_agent_response self agent_url
                      message agent_id) w in
    fst (result o) = Ok d ->
    succeeded d ->
    lookup "agent_type" d
    = Some (VStr (SeleniumAgentService._detect_agent_type agent_url))
    /\ lookup "agent_id" d = Some (of_optional agent_id)
    /\ exists now,
         lookup "timestamp" d = Some (VFloat now)
         /\ ends_with [Ev time now] (trace o).
Proof.
  intros W h self agent_url message agent_id w d o. subst o.
  rewrite run_get_agent_response. cbv zeta.
  set (o0 := run h _ w).
  destruct (negb (fst (result o0))).
  { cbn [result fst]. intros E S. injection E as <-. discriminate S. }
  set (o1 := run h _ (final o0)).
  destruct (result o1) as [r|].
  2:{ cbn [result fst]. intros E S. injection E as <-. discriminate S. }
  destruct (truthy r).
  2:{ cbn [result fst]. intros E S. injection E as <-. discriminate S. }
  cbn [result fst trace]. intros E _. injection E as <-.
  split; [reflexivity|]. split; [reflexivity|].
  eexists. split; [reflexivity|].
  exists (trace o0 ++ trace o1). now rewrite <- app_assoc.
Qed.

(** The success on the chat page. *)
Lemma selenium_success_on_chat_page :
  exists d,
    fst (result (run Synthetic.answer
                   (SeleniumAgentService.get_agent_response
                      (SeleniumAgentService.__init__ true)
                      (py "https://chatgpt.com/") (py "hola") (Some (py "a1")))
                   (Synthetic.browser_with true Synthetic.chat_page []))) = Ok d
    /\ lookup "agent_type" d = Some (VStr (py "chatgpt"))
    /\ lookup "agent_id" d = Some (VStr (py "a1")).
Proof.
  eexists. split; [vm_compute; reflexivity|].
  refine ((fun H => conj (proj1 H) (proj1 (proj2 H)))
            (@selenium_success_echoes_the_request _ Synthetic.answer
               (SeleniumAgentService.__init__ true)
               (py "https://chatgpt.com/") (py "hola") (Some (py "a1"))
               (Synthetic.browser_with true Synthetic.chat_page []) _ _ _)).
  - vm_compute. reflexivity.
  - vm_compute. reflexivity.
Defined.
